(** * Denomination registry and unit conversion

    A shallow embedding of [types/denom.go]: the process-wide registry of
    denominations ([denomUnits], [baseDenom]), the conversions between
    registered denominations, the normalisation to the base denomination and
    the two text entry points.

    [denom.go] is written against the package
    [github.com/cosmos/cosmos-sdk/types] (its line 5), which supplies the
    decimal type [Dec], the integer type [Int], the coins and their parser.
    That package is a dependency and its text is not part of the repository;
    module [Sdk] below embeds the functions of it that [denom.go] calls, after
    the behaviour of the upstream package, so that the functions of
    [denom.go] can be embedded as they are written. *)

From Stdlib Require Import ZArith Lia Ascii String Sorted.
From stdpp Require Import base strings gmap list.

Open Scope string_scope.
Open Scope Z_scope.

(** ** Outcomes of a Go call *)

(** The [error] values that the functions of [denom.go] and the parser
    return.  Go carries them as formatted messages; the constructors keep the
    kind and the name the message quotes. *)
Inductive Error : Type :=
| InvalidDenom (denom : string)
| AlreadyRegistered (denom : string)
| SourceNotRegistered (denom : string)
| DestNotRegistered (denom : string)
| NotRegistered
| ParseError.

(** A Go result pair [(T, error)]. *)
Inductive Res (A : Type) : Type :=
| Ok (a : A)
| Err (e : Error).
Arguments Ok {A} a.
Arguments Err {A} e.

(** The run-time aborts ([panic]) that the dependency raises. *)
Inductive Abort : Type :=
| IntOverflow        (* a decimal result longer than [maxDecBitLen] bits *)
| DivisionByZero     (* [big.Int.Quo] with a zero divisor *)
| IntOutOfBound      (* an integer longer than [maxBitLen] bits *)
| InvalidCoin.       (* a coin constructor given a bad name or a negative amount *)

(** A call either returns or panics; nothing in [denom.go] recovers. *)
Inductive Run (A : Type) : Type :=
| Done (a : A)
| Panic (p : Abort).
Arguments Done {A} a.
Arguments Panic {A} p.

#[global] Instance Run_ret : MRet Run := fun A a => Done a.
#[global] Instance Run_bind : MBind Run := fun A B f m =>
  match m with
  | Done a => f a
  | Panic p => Panic p
  end.

Definition returns {A : Type} (m : Run A) : Prop := exists a, m = Done a.

(** ** The dependency: [github.com/cosmos/cosmos-sdk/types] *)

Module Sdk.

(** *** Denomination names *)

Definition isLetter (c : ascii) : bool :=
  let n := N_of_ascii c in
  ((65 <=? n)%N && (n <=? 90)%N) || ((97 <=? n)%N && (n <=? 122)%N).

Definition isDigit (c : ascii) : bool :=
  let n := N_of_ascii c in (48 <=? n)%N && (n <=? 57)%N.

Definition isSeparator (c : ascii) : bool :=
  bool_decide (c ∈ list_ascii_of_string "/:._-").

Definition isDenomChar (c : ascii) : bool :=
  isLetter c || isDigit c || isSeparator c.

(** Modelled from the spec: the name grammar of the dependency's
    [ValidateDenom] (spec, sections 3 and 6): a letter, then letters, digits
    or one of [/ : . _ -], three to 128 characters in all. *)
Definition validDenom (denom : string) : bool :=
  match denom with
  | EmptyString => false
  | String c rest =>
      isLetter c
      && forallb isDenomChar (list_ascii_of_string rest)
      && (2 <=? String.length rest)%nat
      && (String.length rest <=? 127)%nat
  end.

(** [ValidateDenom] returns [nil] ([None]) on a name of the grammar. *)
Definition ValidateDenom (denom : string) : option Error :=
  if validDenom denom then None else Some (InvalidDenom denom).

(** *** Integers and decimals *)

(** [Int] wraps a [big.Int]; [Dec] wraps the [big.Int] that holds the value
    times [10^Precision]. *)
Abbreviation Int := Z (only parsing).
Abbreviation Dec := Z (only parsing).

Definition Precision : Z := 18.
Definition precisionReuse : Z := 10 ^ Precision.
Definition fivePrecision : Z := Z.quot precisionReuse 2.

(** [big.Int.BitLen]: the length of the absolute value in bits, 0 for 0. *)
Definition BitLen (x : Z) : Z :=
  if x =? 0 then 0 else Z.log2 (Z.abs x) + 1.

(** [const maxDecBitLen = 315] ([denom.go], line 8) repeats the ceiling of
    the decimal type, which is the ceiling [maxBitLen] of the integer type
    plus the 60 bits that [10^18] takes. *)
Definition maxDecBitLen : Z := 315.
Definition DecimalPrecisionBits : Z := 60.
Definition maxBitLen : Z := maxDecBitLen - DecimalPrecisionBits.

(** [chopPrecisionAndRound] on a non-negative argument: drop [Precision]
    digits, round half to even. *)
Definition chopNonneg (d : Z) : Z :=
  let quo := Z.quot d precisionReuse in
  let rem := Z.rem d precisionReuse in
  if rem =? 0 then quo
  else match rem ?= fivePrecision with
       | Lt => quo
       | Gt => quo + 1
       | Eq => if Z.even quo then quo else quo + 1
       end.

(** [chopPrecisionAndRound]: a negative argument is negated, chopped and
    negated back. *)
Definition chopPrecisionAndRound (d : Z) : Z :=
  if d <? 0 then - chopNonneg (- d) else chopNonneg d.

Definition checkDec (chopped : Z) : Run Dec :=
  if BitLen chopped >? maxDecBitLen then Panic IntOverflow else Done chopped.

Definition ZeroDec : Dec := 0.

(** [NewDecFromInt(i)] is [i * 10^Precision], unchecked. *)
Definition NewDecFromInt (i : Int) : Dec := i * precisionReuse.

Definition DecEqual (d d2 : Dec) : bool := d =? d2.

(** [Dec.Mul]: product, chopped and rounded, then the bit-length check. *)
Definition Mul (d d2 : Dec) : Run Dec :=
  checkDec (chopPrecisionAndRound (d * d2)).

(** [Dec.Quo], the rounding division (the package also has [QuoTruncate] and
    [QuoRoundUp], which [denom.go] does not call): the dividend is multiplied
    by the precision twice, divided with [big.Int.Quo] (truncated; it panics
    on a zero divisor), chopped and rounded, then the bit-length check. *)
Definition Quo (d d2 : Dec) : Run Dec :=
  if d2 =? 0 then Panic DivisionByZero
  else checkDec (chopPrecisionAndRound (Z.quot (d * precisionReuse * precisionReuse) d2)).

(** [Dec.Sub]. *)
Definition Sub (d d2 : Dec) : Run Dec := checkDec (d - d2).

(** [NewIntFromBigInt]. *)
Definition NewIntFromBigInt (i : Z) : Run Int :=
  if BitLen i >? maxBitLen then Panic IntOutOfBound else Done i.

(** [Dec.TruncateInt]: the digits after the point are dropped (towards
    zero). *)
Definition TruncateInt (d : Dec) : Run Int :=
  NewIntFromBigInt (Z.quot d precisionReuse).

(** *** Coins *)

Record Coin : Type := mkCoin { Denom : string; Amount : Int }.
Record DecCoin : Type := mkDecCoin { DDenom : string; DAmount : Dec }.

(** [NewCoin] panics unless the name is valid and the amount is not
    negative. *)
Definition NewCoin (denom : string) (amount : Int) : Run Coin :=
  if validDenom denom && (0 <=? amount) then Done (mkCoin denom amount)
  else Panic InvalidCoin.

(** [NewDecCoinFromDec], with the same two checks. *)
Definition NewDecCoinFromDec (denom : string) (amount : Dec) : Run DecCoin :=
  if validDenom denom && (0 <=? amount) then Done (mkDecCoin denom amount)
  else Panic InvalidCoin.

(** [DecCoin.TruncateDecimal] returns the truncated coin and the change. *)
Definition TruncateDecimal (coin : DecCoin) : Run (Coin * DecCoin) :=
  truncated ← TruncateInt (DAmount coin);
  change ← Sub (DAmount coin) (NewDecFromInt truncated);
  c ← NewCoin (DDenom coin) truncated;
  d ← NewDecCoinFromDec (DDenom coin) change;
  Done (c, d).

(** *** The decimal-coin parser

    [ParseDecCoin] trims the text and matches it against
    [^(amount)[[:space:]]*(denom)$], the amount being [digits(.digits)?] or
    [.digits] and the name that of the grammar above.  [ParseDecCoins] trims
    the text, returns [nil] for an empty one, splits the rest at the commas,
    parses each piece, sanitises the coins (the zero coins are removed and
    the rest is sorted by name) and validates the outcome (names strictly
    ascending, amounts positive).  All their failures are kept as
    [ParseError]. *)

Definition isSpace (c : ascii) : bool :=
  bool_decide (N_of_ascii c ∈ [9; 10; 11; 12; 13; 32]%N).

Fixpoint span (p : ascii -> bool) (s : list ascii) : list ascii * list ascii :=
  match s with
  | c :: rest =>
      if p c then let '(a, b) := span p rest in (c :: a, b) else ([], s)
  | [] => ([], [])
  end.

(** [strings.TrimSpace], on the white space of ASCII. *)
Definition TrimSpace (s : list ascii) : list ascii :=
  rev (snd (span isSpace (rev (snd (span isSpace s))))).

(** [strings.Split(s, ",")]. *)
Fixpoint Split (s : list ascii) : list (list ascii) :=
  match s with
  | [] => [[]]
  | c :: rest =>
      if Ascii.eqb c "," then [] :: Split rest
      else match Split rest with
           | p :: ps => (c :: p) :: ps
           | [] => [[c]]
           end
  end.

Definition digitsToZ (ds : list ascii) : Z :=
  fold_left (fun acc c => 10 * acc + (Z.of_N (N_of_ascii c) - 48)) ds 0.

(** The match of [reDecCoin]: the digits before the point, the digits after
    it when there is a point, and the name. *)
Definition matchDecCoin (s : list ascii)
  : option (list ascii * option (list ascii) * string) :=
  let '(ds, r1) := span isDigit s in
  let plain := match ds with [] => None | _ => Some (ds, None, r1) end in
  let amount :=
    match r1 with
    | "."%char :: r2 =>
        let '(fs, r3) := span isDigit r2 in
        match fs with
        | [] => plain
        | _ => Some (ds, Some fs, r3)
        end
    | _ => plain
    end in
  match amount with
  | None => None
  | Some (ds, fs, rest) =>
      let denom := string_of_list_ascii (snd (span isSpace rest)) in
      if validDenom denom then Some (ds, fs, denom) else None
  end.

(** [NewDecFromStr] on the amount the expression matched: no digit before
    the point, or more than [Precision] digits after it, or a value beyond
    [maxDecBitLen] bits, is an error. *)
Definition NewDecFromStr (ds : list ascii) (fs : option (list ascii)) : Res Dec :=
  let decs := default [] fs in
  let lenDecs := Z.of_nat (length decs) in
  if bool_decide (fs <> None) && ((lenDecs =? 0) || (Z.of_nat (length ds) =? 0))
  then Err ParseError
  else if lenDecs >? Precision then Err ParseError
  else
    let combined := digitsToZ (ds ++ decs) * 10 ^ (Precision - lenDecs) in
    if BitLen combined >? maxDecBitLen then Err ParseError else Ok combined.

Definition ParseDecCoin (coinStr : list ascii) : Run (Res DecCoin) :=
  match matchDecCoin (TrimSpace coinStr) with
  | None => Done (Err ParseError)
  | Some (ds, fs, denomStr) =>
      match NewDecFromStr ds fs with
      | Err e => Done (Err e)
      | Ok amount =>
          match ValidateDenom denomStr with
          | Some _ => Done (Err ParseError)
          | None => coin ← NewDecCoinFromDec denomStr amount; Done (Ok coin)
          end
      end
  end.

(** The order of Go strings: byte by byte. *)
Fixpoint strLt (a b : string) : bool :=
  match a, b with
  | _, EmptyString => false
  | EmptyString, String _ _ => true
  | String x a', String y b' =>
      (N_of_ascii x <? N_of_ascii y)%N
      || ((N_of_ascii x =? N_of_ascii y)%N && strLt a' b')
  end.

Fixpoint insertByDenom (c : DecCoin) (l : list DecCoin) : list DecCoin :=
  match l with
  | [] => [c]
  | x :: rest =>
      if strLt (DDenom c) (DDenom x) then c :: l else x :: insertByDenom c rest
  end.

(** [DecCoins.Sort]: ascending names. *)
Definition SortDecCoins (l : list DecCoin) : list DecCoin :=
  foldr insertByDenom [] l.

(** [sanitizeDecCoins]: the zero coins go, the rest is sorted. *)
Definition sanitizeDecCoins (l : list DecCoin) : list DecCoin :=
  SortDecCoins (filter (fun c => DAmount c <> 0) l).

Fixpoint validateFrom (lowDenom : string) (coins : list DecCoin) : bool :=
  match coins with
  | [] => true
  | coin :: rest =>
      validDenom (DDenom coin) && strLt lowDenom (DDenom coin)
      && (0 <? DAmount coin) && validateFrom (DDenom coin) rest
  end.

(** [DecCoins.Validate]. *)
Definition ValidateDecCoins (coins : list DecCoin) : bool :=
  match coins with
  | [] => true
  | coin :: rest =>
      validDenom (DDenom coin) && (0 <? DAmount coin)
      && validateFrom (DDenom coin) rest
  end.

Fixpoint parseEach (coinStrs : list (list ascii)) : Run (Res (list DecCoin)) :=
  match coinStrs with
  | [] => Done (Ok [])
  | coinStr :: rest =>
      r ← ParseDecCoin coinStr;
      match r with
      | Err e => Done (Err e)
      | Ok coin =>
          rs ← parseEach rest;
          match rs with
          | Err e => Done (Err e)
          | Ok coins => Done (Ok (coin :: coins))
          end
      end
  end.

(** [ParseDecCoins]; a Go [nil] slice is [None]. *)
Definition ParseDecCoins (coinsStr : string) : Run (Res (option (list DecCoin))) :=
  let trimmed := TrimSpace (list_ascii_of_string coinsStr) in
  match trimmed with
  | [] => Done (Ok None)
  | _ =>
      r ← parseEach (Split trimmed);
      match r with
      | Err e => Done (Err e)
      | Ok decCoins =>
          let newDecCoins := sanitizeDecCoins decCoins in
          if ValidateDecCoins newDecCoins then Done (Ok (Some newDecCoins))
          else Done (Err ParseError)
      end
  end.

End Sdk.

(** ** The package: [types/denom.go] *)

Module Denom.
Import Sdk.

(** The two package-level maps, [denomUnits] (line 12) and [baseDenom]
    (line 15). *)
Record Registry : Type := mkRegistry {
  denomUnits : gmap string Z;
  baseDenom : gmap string string
}.

(** Both maps are declared empty. *)
Definition emptyRegistry : Registry := mkRegistry ∅ ∅.

(** [RegisterDenom] (lines 19-33): the returned error and the registry after
    the call. *)
Definition RegisterDenom (reg : Registry) (denom : string) (unit : Dec)
    (bDenom : string) (bUnit : Dec) : option Error * Registry :=
  match ValidateDenom denom with
  | Some err => (Some err, reg)
  | None =>
      match denomUnits reg !! denom with
      | Some _ => (Some (AlreadyRegistered denom), reg)
      | None =>
          let units1 := <[denom := unit]> (denomUnits reg) in
          let units2 := <[bDenom := bUnit]> units1 in
          let base1 := <[denom := bDenom]> (baseDenom reg) in
          let base2 := <[bDenom := bDenom]> base1 in
          (None, mkRegistry units2 base2)
      end
  end.

(** [GetDenomUnit] (lines 37-48). *)
Definition GetDenomUnit (reg : Registry) (denom : string) : Dec * bool :=
  match ValidateDenom denom with
  | Some _ => (ZeroDec, false)
  | None =>
      match denomUnits reg !! denom with
      | None => (ZeroDec, false)
      | Some unit => (unit, true)
      end
  end.

(** Reading a Go map of strings at a missing key gives the empty string. *)
Definition baseDenomAt (reg : Registry) (denom : string) : string :=
  default EmptyString (baseDenom reg !! denom).

(** [GetBaseDenom] (lines 51-56). *)
Definition GetBaseDenom (reg : Registry) (denom : string) : Res string :=
  if String.eqb (baseDenomAt reg denom) EmptyString then Err NotRegistered
  else Ok (baseDenomAt reg denom).

(** [ConvertCoin] (lines 61-81). *)
Definition ConvertCoin (reg : Registry) (coin : Coin) (denom : string)
  : Run (Res Coin) :=
  match ValidateDenom denom with
  | Some err => Done (Err err)
  | None =>
      match GetDenomUnit reg (Denom coin) with
      | (_, false) => Done (Err (SourceNotRegistered (Denom coin)))
      | (srcUnit, true) =>
          match GetDenomUnit reg denom with
          | (_, false) => Done (Err (DestNotRegistered denom))
          | (dstUnit, true) =>
              if DecEqual srcUnit dstUnit then
                c ← NewCoin denom (Amount coin); Done (Ok c)
              else
                m ← Mul (NewDecFromInt (Amount coin)) srcUnit;
                q ← Quo m dstUnit;
                t ← TruncateInt q;
                c ← NewCoin denom t;
                Done (Ok c)
          end
      end
  end.

(** [ConvertDecCoin] (lines 86-106). *)
Definition ConvertDecCoin (reg : Registry) (coin : DecCoin) (denom : string)
  : Run (Res DecCoin) :=
  match ValidateDenom denom with
  | Some err => Done (Err err)
  | None =>
      match GetDenomUnit reg (DDenom coin) with
      | (_, false) => Done (Err (SourceNotRegistered (DDenom coin)))
      | (srcUnit, true) =>
          match GetDenomUnit reg denom with
          | (_, false) => Done (Err (DestNotRegistered denom))
          | (dstUnit, true) =>
              if DecEqual srcUnit dstUnit then
                c ← NewDecCoinFromDec denom (DAmount coin); Done (Ok c)
              else
                m ← Mul (DAmount coin) srcUnit;
                q ← Quo m dstUnit;
                c ← NewDecCoinFromDec denom q;
                Done (Ok c)
          end
      end
  end.

(** [NormalizeCoin] (lines 110-120). *)
Definition NormalizeCoin (reg : Registry) (coin : Coin) : Run Coin :=
  match GetBaseDenom reg (Denom coin) with
  | Err _ => Done coin
  | Ok base =>
      r ← ConvertCoin reg coin base;
      match r with
      | Err _ => Done coin
      | Ok newCoin => Done newCoin
      end
  end.

(** [NormalizeDecCoin] (lines 124-134). *)
Definition NormalizeDecCoin (reg : Registry) (coin : DecCoin) : Run DecCoin :=
  match GetBaseDenom reg (DDenom coin) with
  | Err _ => Done coin
  | Ok base =>
      r ← ConvertDecCoin reg coin base;
      match r with
      | Err _ => Done coin
      | Ok newCoin => Done newCoin
      end
  end.

(** The statement of lines 144 and 160: normalise, truncate, keep the coin
    and drop the change. *)
Definition normalizeTruncate (reg : Registry) (coin : DecCoin) : Run Coin :=
  n ← NormalizeDecCoin reg coin;
  '(newCoin, _) ← TruncateDecimal n;
  Done newCoin.

(** The loop of lines 143-146, [result] being the slice built so far. *)
Fixpoint normalizeLoop (reg : Registry) (coins : list DecCoin)
    (result : list Coin) : Run (list Coin) :=
  match coins with
  | [] => Done result
  | coin :: rest =>
      newCoin ← normalizeTruncate reg coin;
      normalizeLoop reg rest (result ++ [newCoin])
  end.

(** [NormalizeCoins] (lines 137-149); [None] is the [nil] slice. *)
Definition NormalizeCoins (reg : Registry) (coins : option (list DecCoin))
  : Run (option (list Coin)) :=
  match coins with
  | None => Done None
  | Some l => result ← normalizeLoop reg l []; Done (Some result)
  end.

(** [ParseCoinNormalized] (lines 154-162). *)
Definition ParseCoinNormalized (reg : Registry) (coinStr : string)
  : Run (Res Coin) :=
  r ← ParseDecCoin (list_ascii_of_string coinStr);
  match r with
  | Err err => Done (Err err)
  | Ok decCoin => coin ← normalizeTruncate reg decCoin; Done (Ok coin)
  end.

(** [ParseCoinsNormalized] (lines 163-169).  On an error the Go code returns
    the empty, non-nil [Coins{}] beside it. *)
Definition ParseCoinsNormalized (reg : Registry) (coinStr : string)
  : Run (Res (option (list Coin))) :=
  r ← ParseDecCoins coinStr;
  match r with
  | Err err => Done (Err err)
  | Ok coins => result ← NormalizeCoins reg coins; Done (Ok result)
  end.

End Denom.

(** * Vocabulary of the statements *)

Import Sdk Denom.

(** The decimal 1, that is [10^18] in the representation of [Dec]. *)
Definition one : Z := precisionReuse.

(** The registry of the spec's example,
    [RegisterDenom("atom", 1, "uatom", 0.000001)]. *)
Definition regAtom : Registry :=
  snd (RegisterDenom emptyRegistry "atom" one "uatom" 1000000000000).

(** The registry after [RegisterDenom("atom", 1, "ab", 1)]: the base name
    [ab] is too short for the grammar. *)
Definition regShortBase : Registry :=
  snd (RegisterDenom emptyRegistry "atom" one "ab" one).

(** The registry after [RegisterDenom] of [atom] with the empty name as its
    base. *)
Definition regEmptyBase : Registry :=
  snd (RegisterDenom emptyRegistry "atom" one EmptyString one).

(** The registry after [RegisterDenom("atom", 1, "uatom", 0)]: the base has
    the multiplier zero. *)
Definition regZeroBase : Registry :=
  snd (RegisterDenom emptyRegistry "atom" one "uatom" 0).

(** The registry after [RegisterDenom("atom", 10^60, "uatom", 10^-18)]. *)
Definition regWide : Registry :=
  snd (RegisterDenom emptyRegistry "atom" (10 ^ 78) "uatom" 1).

(** The registry after
    [RegisterDenom("aaa", 1.999999999999999999, "bbb", 2)]. *)
Definition regNearTwo : Registry :=
  snd (RegisterDenom emptyRegistry "aaa" (2 * one - 1) "bbb" (2 * one)).

(** One call of [RegisterDenom]. *)
Record RegisterCall : Type := mkCall {
  callDenom : string; callUnit : Z; callBase : string; callBaseUnit : Z
}.

(** The registry after a sequence of calls, whatever each call returned. *)
Definition registerAll (calls : list RegisterCall) : Registry :=
  fold_left
    (fun reg c =>
       snd (RegisterDenom reg (callDenom c) (callUnit c) (callBase c) (callBaseUnit c)))
    calls emptyRegistry.

(** Every base-link points at a name that is linked to itself and has a
    multiplier. *)
Definition linksClosed (reg : Registry) : Prop :=
  forall d b, baseDenom reg !! d = Some b ->
    baseDenom reg !! b = Some b /\ is_Some (denomUnits reg !! b).

(** What [Quo] leaves for a dividend [n] and a divisor [d] that carry the
    same scale, and what [TruncateInt] makes of it. *)
Definition quoRounded (n d : Z) : Z :=
  chopPrecisionAndRound (Z.quot (n * precisionReuse * precisionReuse) d).

Definition quoTruncated (n d : Z) : Z := Z.quot (quoRounded n d) precisionReuse.

(** The order in which [DecCoins.Sort] leaves two coins. *)
Definition denomLt (a b : DecCoin) : Prop := strLt (DDenom a) (DDenom b) = true.

(** Both maps hold the same names. *)
Definition sameNames (reg : Registry) : Prop :=
  forall k, is_Some (denomUnits reg !! k) <-> is_Some (baseDenom reg !! k).

(** One step of [registerAll]. *)
Definition registerCall (reg : Registry) (c : RegisterCall) : Registry :=
  snd (RegisterDenom reg (callDenom c) (callUnit c) (callBase c) (callBaseUnit c)).

(** A name outside the grammar is linked to itself only. *)
Definition selfLinkedOutside (reg : Registry) : Prop :=
  forall d b, baseDenom reg !! d = Some b -> validDenom d = true \/ b = d.

(** * Properties of the registry *)

Section Registry.

Implicit Types (reg : Registry) (denom bDenom : string) (unit bUnit : Z).

Lemma RegisterDenom_invalid reg denom unit bDenom bUnit :
  validDenom denom = false ->
  RegisterDenom reg denom unit bDenom bUnit = (Some (InvalidDenom denom), reg).
Proof. intros Hv. unfold RegisterDenom, ValidateDenom. by rewrite Hv. Qed.

Lemma RegisterDenom_taken reg denom u unit bDenom bUnit :
  validDenom denom = true -> denomUnits reg !! denom = Some u ->
  RegisterDenom reg denom unit bDenom bUnit = (Some (AlreadyRegistered denom), reg).
Proof. intros Hv Hu. unfold RegisterDenom, ValidateDenom. by rewrite Hv, Hu. Qed.

Lemma RegisterDenom_fresh reg denom unit bDenom bUnit :
  validDenom denom = true -> denomUnits reg !! denom = None ->
  RegisterDenom reg denom unit bDenom bUnit =
    (None, mkRegistry (<[bDenom := bUnit]> (<[denom := unit]> (denomUnits reg)))
                      (<[bDenom := bDenom]> (<[denom := bDenom]> (baseDenom reg)))).
Proof. intros Hv Hu. unfold RegisterDenom, ValidateDenom. by rewrite Hv, Hu. Qed.

Lemma GetDenomUnit_Some reg denom u :
  validDenom denom = true -> denomUnits reg !! denom = Some u ->
  GetDenomUnit reg denom = (u, true).
Proof. intros Hv Hu. unfold GetDenomUnit, ValidateDenom. by rewrite Hv, Hu. Qed.

End Registry.

(** ** Registering a name that is already there *)

(** C2, as stated, fails: [ab] has a multiplier recorded, and registering it
    again returns the error of [ValidateDenom], not the one of line 25; nor
    does [GetDenomUnit] return the multiplier. *)
Lemma recorded_name_not_AlreadyRegistered :
  ~ (forall reg denom u unit bDenom bUnit,
        denomUnits reg !! denom = Some u ->
        RegisterDenom reg denom unit bDenom bUnit
          = (Some (AlreadyRegistered denom), reg)
        /\ GetDenomUnit (snd (RegisterDenom reg denom unit bDenom bUnit)) denom
          = (u, true)).
Proof.
  intros H.
  destruct (H regShortBase "ab" one 5 "ab" 5) as [H1 _]; [by vm_compute|].
  apply (f_equal fst) in H1. vm_compute in H1. discriminate.
Qed.

(** C2, amended: when [denom] has a multiplier recorded, [RegisterDenom]
    returns an error and the registry it leaves is the one it found; for a
    name of the grammar the error is [AlreadyRegistered] and [GetDenomUnit]
    still returns the recorded multiplier (a name outside the grammar gets
    [InvalidDenom]). *)
Theorem RegisterDenom_recorded reg denom u unit bDenom bUnit :
  denomUnits reg !! denom = Some u ->
  snd (RegisterDenom reg denom unit bDenom bUnit) = reg
  /\ fst (RegisterDenom reg denom unit bDenom bUnit)
     = Some (if validDenom denom then AlreadyRegistered denom
             else InvalidDenom denom)
  /\ (validDenom denom = true ->
      GetDenomUnit (snd (RegisterDenom reg denom unit bDenom bUnit)) denom
      = (u, true)).
Proof.
  intros Hu. destruct (validDenom denom) eqn:Hv.
  - rewrite (RegisterDenom_taken _ _ u) by done. simpl.
    repeat split. intros _. by apply GetDenomUnit_Some.
  - rewrite RegisterDenom_invalid by done. simpl. by repeat split.
Qed.

Lemma RegisterDenom_recorded_witness :
  let reg := regShortBase in
  denomUnits reg !! "atom" = Some one
  /\ snd (RegisterDenom reg "atom" 7 "uatom" 9) = reg
  /\ fst (RegisterDenom reg "atom" 7 "uatom" 9) = Some (AlreadyRegistered "atom")
  /\ GetDenomUnit (snd (RegisterDenom reg "atom" 7 "uatom" 9)) "atom" = (one, true).
Proof.
  assert (Hu : denomUnits regShortBase !! "atom" = Some one) by (by vm_compute).
  destruct (RegisterDenom_recorded regShortBase "atom" one 7 "uatom" 9 Hu)
    as (H1 & H2 & H3).
  split; [exact Hu|]. split; [exact H1|]. split; [exact H2|].
  apply H3. reflexivity.
Defined.

(** ** A successful registration *)

(** C6, as stated, fails when [denom] and [baseDenom] are the same name:
    line 29 overwrites what line 28 wrote, and the name ends with [baseUnit],
    not [unit]. *)
Lemma RegisterDenom_same_name_keeps_bUnit :
  ~ (forall reg denom unit bDenom bUnit,
        validDenom denom = true -> denomUnits reg !! denom = None ->
        let reg' := snd (RegisterDenom reg denom unit bDenom bUnit) in
        fst (RegisterDenom reg denom unit bDenom bUnit) = None
        /\ denomUnits reg' !! denom = Some unit
        /\ denomUnits reg' !! bDenom = Some bUnit
        /\ baseDenom reg' !! denom = Some bDenom
        /\ baseDenom reg' !! bDenom = Some bDenom).
Proof.
  intros H.
  destruct (H emptyRegistry "atom" 1 "atom" 2) as (_ & H2 & _);
    [by vm_compute | by vm_compute |].
  vm_compute in H2. discriminate.
Qed.

(** C6, amended: a successful [RegisterDenom] records [baseUnit] for
    [baseDenom] (overwriting), records [unit] for [denom] when the two names
    differ, links both names to [baseDenom], and leaves every other entry of
    both maps as it was. *)
Theorem RegisterDenom_installs reg denom unit bDenom bUnit :
  validDenom denom = true -> denomUnits reg !! denom = None ->
  let reg' := snd (RegisterDenom reg denom unit bDenom bUnit) in
  fst (RegisterDenom reg denom unit bDenom bUnit) = None
  /\ denomUnits reg' !! bDenom = Some bUnit
  /\ (denom <> bDenom -> denomUnits reg' !! denom = Some unit)
  /\ baseDenom reg' !! denom = Some bDenom
  /\ baseDenom reg' !! bDenom = Some bDenom
  /\ (forall k, k <> denom -> k <> bDenom ->
        denomUnits reg' !! k = denomUnits reg !! k
        /\ baseDenom reg' !! k = baseDenom reg !! k).
Proof.
  intros Hv Hu. rewrite RegisterDenom_fresh by done. simpl.
  split; [done|]. split; [by rewrite lookup_insert_eq|].
  split; [intros Hne; rewrite lookup_insert_ne by done; by rewrite lookup_insert_eq|].
  split.
  { destruct (decide (bDenom = denom)) as [->|Hne].
    - by rewrite lookup_insert_eq.
    - rewrite lookup_insert_ne by done. by rewrite lookup_insert_eq. }
  split; [by rewrite lookup_insert_eq|].
  intros k Hk1 Hk2. by rewrite !lookup_insert_ne by done.
Qed.

Lemma RegisterDenom_installs_witness :
  let reg' := snd (RegisterDenom regShortBase "uatom" 3 "ab" 4) in
  fst (RegisterDenom regShortBase "uatom" 3 "ab" 4) = None
  /\ denomUnits reg' !! "ab" = Some 4
  /\ denomUnits reg' !! "uatom" = Some 3
  /\ baseDenom reg' !! "uatom" = Some "ab"
  /\ baseDenom reg' !! "ab" = Some "ab"
  /\ denomUnits reg' !! "atom" = denomUnits regShortBase !! "atom".
Proof.
  destruct (RegisterDenom_installs regShortBase "uatom" 3 "ab" 4)
    as (H1 & H2 & H3 & H4 & H5 & H6); [reflexivity | by vm_compute |].
  split; [exact H1|]. split; [exact H2|]. split; [by apply H3|].
  split; [exact H4|]. split; [exact H5|].
  by apply (H6 "atom").
Defined.

(** ** Looking up the base denomination *)

(** C8, as stated, fails: [atom] has a base-link entry, the empty name, and
    [GetBaseDenom] reads it as a missing one. *)
Lemma GetBaseDenom_fails_on_existing_entry :
  ~ (forall reg denom,
        (GetBaseDenom reg denom = Err NotRegistered
         <-> baseDenom reg !! denom = None)
        /\ (forall b, baseDenom reg !! denom = Some b ->
                      GetBaseDenom reg denom = Ok b)).
Proof.
  intros H. destruct (H regEmptyBase "atom") as [[H1 _] _].
  assert (Hn : baseDenom regEmptyBase !! "atom" = None) by (by apply H1).
  vm_compute in Hn. discriminate.
Qed.

Lemma eqb_empty (s : string) : String.eqb s EmptyString = true <-> s = EmptyString.
Proof. apply String.eqb_eq. Qed.

(** C8, amended: [GetBaseDenom(denom)] fails with [NotRegistered] exactly
    when [denom] has no base-link entry or has the empty name as its entry;
    an entry that is not the empty name is returned. *)
Theorem GetBaseDenom_spec reg denom :
  (GetBaseDenom reg denom = Err NotRegistered
   <-> baseDenom reg !! denom = None \/ baseDenom reg !! denom = Some EmptyString)
  /\ (forall b, baseDenom reg !! denom = Some b -> b <> EmptyString ->
                GetBaseDenom reg denom = Ok b)
  /\ (forall e, GetBaseDenom reg denom = Err e -> e = NotRegistered).
Proof.
  unfold GetBaseDenom, baseDenomAt.
  destruct (baseDenom reg !! denom) as [b|] eqn:Hb; simpl.
  - destruct (String.eqb b EmptyString) eqn:Heq.
    + apply eqb_empty in Heq as ->. split; [split; auto|].
      split; [intros b [= <-] Hne; done | by intros e [= <-]].
    + assert (b <> EmptyString) by (intros ->; discriminate).
      split; [split; [discriminate | intros [?|[= ->]]; done]|].
      split; [by intros b' [= <-] | discriminate].
  - split; [split; auto|]. split; [discriminate | by intros e [= <-]].
Qed.

Lemma GetBaseDenom_spec_witness :
  GetBaseDenom regShortBase "atom" = Ok "ab"
  /\ GetBaseDenom regEmptyBase "atom" = Err NotRegistered
  /\ GetBaseDenom regShortBase "uatom" = Err NotRegistered.
Proof.
  split; [|split].
  - apply (GetBaseDenom_spec regShortBase "atom"); [by vm_compute | discriminate].
  - apply (GetBaseDenom_spec regEmptyBase "atom"). right. by vm_compute.
  - apply (GetBaseDenom_spec regShortBase "uatom"). left. by vm_compute.
Defined.

(** ** The base-link map over any sequence of registrations *)

Lemma linksClosed_empty : linksClosed emptyRegistry.
Proof. intros d b H. simpl in H. by rewrite lookup_empty in H. Qed.

Lemma linksClosed_RegisterDenom reg denom unit bDenom bUnit :
  linksClosed reg ->
  linksClosed (snd (RegisterDenom reg denom unit bDenom bUnit)).
Proof.
  intros Hinv. destruct (validDenom denom) eqn:Hv;
    [|by rewrite RegisterDenom_invalid].
  destruct (denomUnits reg !! denom) as [u|] eqn:Hu;
    [by rewrite (RegisterDenom_taken _ _ u)|].
  rewrite RegisterDenom_fresh by done. simpl.
  assert (Hb :
    is_Some ((<[bDenom:=bUnit]> (<[denom:=unit]> (denomUnits reg))) !! bDenom))
    by (rewrite lookup_insert_eq; eauto).
  intros d b Hd. simpl in *.
  destruct (decide (d = bDenom)) as [->|Hd1].
  { rewrite lookup_insert_eq in Hd. injection Hd as <-.
    split; [by rewrite lookup_insert_eq | exact Hb]. }
  rewrite lookup_insert_ne in Hd by done.
  destruct (decide (d = denom)) as [->|Hd2].
  { rewrite lookup_insert_eq in Hd. injection Hd as <-.
    split; [by rewrite lookup_insert_eq | exact Hb]. }
  rewrite lookup_insert_ne in Hd by done.
  destruct (Hinv d b Hd) as [Hbb [ub Hub]].
  destruct (decide (b = bDenom)) as [->|Hb1].
  { split; [by rewrite lookup_insert_eq | exact Hb]. }
  assert (b <> denom) by (intros ->; congruence).
  split.
  - by rewrite !lookup_insert_ne.
  - rewrite !lookup_insert_ne by done. eauto.
Qed.

Lemma linksClosed_fold calls reg :
  linksClosed reg ->
  linksClosed
    (fold_left
       (fun reg c =>
          snd (RegisterDenom reg (callDenom c) (callUnit c) (callBase c) (callBaseUnit c)))
       calls reg).
Proof.
  revert reg. induction calls as [|c calls IH]; intros reg Hinv; simpl; [done|].
  apply IH. by apply linksClosed_RegisterDenom.
Qed.

(** C9: from the empty registry, after any finite sequence of [RegisterDenom]
    calls, the base-link of a base-link exists and is that same name. *)
Theorem baseDenom_idempotent (calls : list RegisterCall) (d b : string) :
  baseDenom (registerAll calls) !! d = Some b ->
  baseDenom (registerAll calls) !! b = Some b.
Proof.
  intros H. by apply (linksClosed_fold calls emptyRegistry linksClosed_empty d b).
Qed.

Lemma baseDenom_idempotent_witness :
  let calls := [mkCall "atom" one "uatom" 1000000000000;
                mkCall "atom" 5 "natom" 1;
                mkCall "matom" 1000000000000000 "atom" one;
                mkCall "x" 1 "y" 1] in
  baseDenom (registerAll calls) !! "matom" = Some "atom"
  /\ baseDenom (registerAll calls) !! "atom" = Some "atom".
Proof.
  cbv zeta.
  assert (H : baseDenom (registerAll
                [mkCall "atom" one "uatom" 1000000000000;
                 mkCall "atom" 5 "natom" 1;
                 mkCall "matom" 1000000000000000 "atom" one;
                 mkCall "x" 1 "y" 1]) !! "matom" = Some "atom") by (by vm_compute).
  split; [exact H|]. exact (baseDenom_idempotent _ _ _ H).
Defined.

(** ** The base name is not validated *)

Lemma GetDenomUnit_invalid reg denom :
  validDenom denom = false -> GetDenomUnit reg denom = (ZeroDec, false).
Proof. intros Hv. unfold GetDenomUnit, ValidateDenom. by rewrite Hv. Qed.

(** C10, as stated, fails in its last clause.  The multiplier installed
    under a base name outside the grammar is returned by no later
    [GetDenomUnit], which validates the name first; and for the claim's own
    example, the empty base name, [GetBaseDenom] does not return the
    base-link either: after [RegisterDenom("atom", 1, "", 1)] both entries
    are in the maps, and all three lookups read them as missing. *)
Lemma invalid_base_not_observed :
  ~ (exists reg denom unit bDenom bUnit found,
        validDenom bDenom = false /\ validDenom denom = true
        /\ denomUnits reg !! denom = None
        /\ GetDenomUnit (snd (RegisterDenom reg denom unit bDenom bUnit)) bDenom
           = (found, true))
  /\ (validDenom EmptyString = false
      /\ fst (RegisterDenom emptyRegistry "atom" one EmptyString one) = None
      /\ denomUnits regEmptyBase !! EmptyString = Some one
      /\ baseDenom regEmptyBase !! EmptyString = Some EmptyString
      /\ GetDenomUnit regEmptyBase EmptyString = (ZeroDec, false)
      /\ GetBaseDenom regEmptyBase EmptyString = Err NotRegistered
      /\ GetBaseDenom regEmptyBase "atom" = Err NotRegistered).
Proof.
  split.
  - intros (reg & denom & unit & bDenom & bUnit & found & Hb & _ & _ & H).
    rewrite GetDenomUnit_invalid in H by done. discriminate.
  - repeat split; by vm_compute.
Qed.

(** C10, amended: [RegisterDenom] checks the grammar of [denom] only.  For
    every base name outside the grammar (the two-letter [ab], the empty
    name) and every valid, unregistered [denom], the registration succeeds
    and writes the multiplier and the self base-link under that base name
    into the two maps.  Of the two, the lookups show the base-link only, and
    only under a base name that is not empty: [GetDenomUnit] reports the
    base name as not registered in every registry, so the multiplier is
    never returned, while it returns [unit] for [denom]; [GetBaseDenom]
    returns the base name for both names when it is not the empty one, and
    fails with [NotRegistered] for both when it is. *)
Theorem RegisterDenom_base_unchecked reg denom unit bDenom bUnit :
  validDenom bDenom = false ->
  validDenom denom = true -> denomUnits reg !! denom = None ->
  let reg' := snd (RegisterDenom reg denom unit bDenom bUnit) in
  fst (RegisterDenom reg denom unit bDenom bUnit) = None
  /\ denomUnits reg' !! bDenom = Some bUnit
  /\ baseDenom reg' !! bDenom = Some bDenom
  /\ baseDenom reg' !! denom = Some bDenom
  /\ (forall later, GetDenomUnit later bDenom = (ZeroDec, false))
  /\ GetDenomUnit reg' denom = (unit, true)
  /\ (bDenom <> EmptyString ->
      GetBaseDenom reg' bDenom = Ok bDenom /\ GetBaseDenom reg' denom = Ok bDenom)
  /\ (bDenom = EmptyString ->
      GetBaseDenom reg' bDenom = Err NotRegistered
      /\ GetBaseDenom reg' denom = Err NotRegistered).
Proof.
  intros Hb Hv Hu. rewrite RegisterDenom_fresh by done. simpl.
  assert (Hne : denom <> bDenom) by (intros ->; congruence).
  split; [done|]. split; [by rewrite lookup_insert_eq|].
  split; [by rewrite lookup_insert_eq|].
  split; [by rewrite lookup_insert_ne, lookup_insert_eq|].
  split; [intros later; by apply GetDenomUnit_invalid|].
  split.
  { apply GetDenomUnit_Some; [done|]. simpl.
    by rewrite lookup_insert_ne, lookup_insert_eq. }
  unfold GetBaseDenom, baseDenomAt. simpl.
  rewrite lookup_insert_eq, lookup_insert_ne, lookup_insert_eq by done. simpl.
  split.
  - intros Hnonempty.
    destruct (String.eqb bDenom EmptyString) eqn:Heq; [by apply eqb_empty in Heq|done].
  - by intros ->.
Qed.

Lemma RegisterDenom_base_unchecked_witness :
  (validDenom "ab" = false
   /\ fst (RegisterDenom emptyRegistry "atom" one "ab" 7) = None
   /\ denomUnits regShortBase !! "ab" = Some one
   /\ baseDenom regShortBase !! "ab" = Some "ab"
   /\ GetDenomUnit regShortBase "ab" = (ZeroDec, false)
   /\ GetDenomUnit regShortBase "atom" = (one, true)
   /\ GetBaseDenom regShortBase "ab" = Ok "ab"
   /\ GetBaseDenom regShortBase "atom" = Ok "ab")
  /\ (validDenom EmptyString = false
      /\ fst (RegisterDenom emptyRegistry "atom" one EmptyString one) = None
      /\ denomUnits regEmptyBase !! EmptyString = Some one
      /\ baseDenom regEmptyBase !! EmptyString = Some EmptyString
      /\ GetDenomUnit regEmptyBase EmptyString = (ZeroDec, false)
      /\ GetBaseDenom regEmptyBase EmptyString = Err NotRegistered
      /\ GetBaseDenom regEmptyBase "atom" = Err NotRegistered).
Proof.
  split.
  - destruct (RegisterDenom_base_unchecked emptyRegistry "atom" one "ab" 7)
      as (H1 & _); [reflexivity | reflexivity | by vm_compute |].
    destruct (RegisterDenom_base_unchecked emptyRegistry "atom" one "ab" one)
      as (_ & H2 & H3 & _ & H4 & H5 & H6 & _);
      [reflexivity | reflexivity | by vm_compute |].
    destruct H6 as [H6 H7]; [discriminate|].
    split; [reflexivity|]. split; [exact H1|]. split; [exact H2|].
    split; [exact H3|]. split; [exact (H4 regShortBase)|]. split; [exact H5|].
    split; [exact H6 | exact H7].
  - destruct (RegisterDenom_base_unchecked emptyRegistry "atom" one EmptyString one)
      as (H1 & H2 & H3 & _ & H4 & _ & _ & H5);
      [reflexivity | reflexivity | by vm_compute |].
    destruct H5 as [H5 H6]; [reflexivity|].
    split; [reflexivity|]. split; [exact H1|]. split; [exact H2|].
    split; [exact H3|]. split; [exact (H4 regEmptyBase)|].
    split; [exact H5 | exact H6].
Defined.

(** * Properties of the decimal arithmetic *)

Section Arithmetic.

Local Abbreviation P := precisionReuse.

Lemma P_pos : 0 < P.
Proof. by vm_compute. Qed.

Lemma P_five : P = 2 * fivePrecision.
Proof. by vm_compute. Qed.

Lemma P_bits : P < 2 ^ DecimalPrecisionBits.
Proof. by vm_compute. Qed.

(** A value below [2^k] in absolute value passes the bit-length check. *)
Lemma BitLen_fits (x k : Z) : 0 <= k -> Z.abs x < 2 ^ k -> (BitLen x >? k) = false.
Proof.
  intros Hk Hx. unfold BitLen. destruct (Z.eqb_spec x 0) as [->|Hne]; [lia|].
  assert (Z.log2 (Z.abs x) < k) by (apply Z.log2_lt_pow2; lia). lia.
Qed.

(** Chopping a non-negative value gives its quotient by [10^18] or the next
    integer, the latter only from half a unit on. *)
Lemma chopNonneg_range (d : Z) :
  0 <= d ->
  d / P <= chopNonneg d <= d / P + 1
  /\ (chopNonneg d = d / P + 1 -> P <= 2 * (d mod P)).
Proof.
  intros Hd. pose proof P_pos. pose proof P_five. unfold chopNonneg.
  rewrite Z.quot_div_nonneg, Z.rem_mod_nonneg by lia.
  destruct (Z.eqb_spec (d mod P) 0); [lia|].
  destruct (Z.compare_spec (d mod P) fivePrecision); [|lia|lia].
  destruct (Z.even (d / P)); lia.
Qed.

(** A multiple of [10^18] is chopped without rounding. *)
Lemma chop_multiple (k : Z) : chopPrecisionAndRound (k * P) = k.
Proof.
  pose proof P_pos.
  assert (Hn : forall j, 0 <= j -> chopNonneg (j * P) = j).
  { intros j Hj. unfold chopNonneg.
    rewrite Z.quot_div_nonneg, Z.rem_mod_nonneg by nia.
    rewrite Z.mod_mul, Z.div_mul by lia. done. }
  unfold chopPrecisionAndRound. destruct (Z.ltb_spec (k * P) 0).
  - replace (- (k * P)) with ((- k) * P) by lia. rewrite Hn by nia. lia.
  - apply Hn. nia.
Qed.

(** The truncated quotient of the engine is the exact truncated quotient or
    the integer above it, the latter only when the exact quotient is within
    half of [10^-18] of that integer. *)
Lemma quoTruncated_range (n d : Z) :
  0 <= n -> 0 < d ->
  0 <= quoRounded n d < (n / d + 2) * P
  /\ n / d <= quoTruncated n d <= n / d + 1
  /\ (d < 2 * P * (d - n mod d) -> quoTruncated n d = n / d).
Proof.
  intros Hn Hd. pose proof P_pos as HP. unfold quoTruncated, quoRounded.
  set (t := n / d). set (m := n mod d).
  assert (Hnm : n = d * t + m) by (apply Z.div_mod; lia).
  assert (Hm : 0 <= m < d) by (apply Z.mod_pos_bound; lia).
  assert (Ht : 0 <= t) by (apply Z.div_pos; lia).
  rewrite (Z.quot_div_nonneg (n * P * P)) by nia.
  set (q := n * P * P / d).
  assert (Hq0 : 0 <= q) by (apply Z.div_pos; nia).
  assert (Hq1 : t * P * P <= q) by (apply Z.div_le_lower_bound; nia).
  assert (Hq2 : q * d <= n * P * P).
  { rewrite Z.mul_comm. apply Z.mul_div_le. lia. }
  assert (Hq3 : q < (t + 1) * P * P).
  { apply Z.div_lt_upper_bound; [lia|]. nia. }
  unfold chopPrecisionAndRound. destruct (Z.ltb_spec q 0); [lia|].
  destruct (chopNonneg_range q Hq0) as [[Hc1 Hc2] Hc3].
  set (c := chopNonneg q) in *.
  assert (Hqd : q = P * (q / P) + q mod P) by (apply Z.div_mod; lia).
  assert (Hqm : 0 <= q mod P < P) by (apply Z.mod_pos_bound; lia).
  assert (Hlo : t * P <= q / P) by (apply Z.div_le_lower_bound; nia).
  assert (Hhi : q / P < (t + 1) * P) by (apply Z.div_lt_upper_bound; nia).
  rewrite Z.quot_div_nonneg by lia.
  assert (Hr1 : t <= c / P) by (apply Z.div_le_lower_bound; nia).
  assert (Hr2 : c / P <= t + 1).
  { assert (c / P < t + 2) by (apply Z.div_lt_upper_bound; nia). lia. }
  split; [nia|]. split; [lia|].
  intros Hfar.
  destruct (Z.eq_dec (c / P) t) as [|Hne]; [done|exfalso].
  assert (Hr : c / P = t + 1) by lia.
  assert (Hc : (t + 1) * P <= c).
  { pose proof (Z.mul_div_le c P HP). nia. }
  assert (Hcq : c = q / P + 1) by lia.
  specialize (Hc3 Hcq).
  assert (q / P = (t + 1) * P - 1) by lia.
  assert (Hq4 : 2 * q >= 2 * (t + 1) * P * P - P) by nia.
  nia.
Qed.

End Arithmetic.

(** * Properties of the conversions *)

Section Conversion.

Local Abbreviation P := precisionReuse.

Implicit Types (reg : Registry) (coin : Coin) (denom : string).

Lemma checkDec_fits (x : Z) :
  Z.abs x < 2 ^ maxDecBitLen -> checkDec x = Done x.
Proof. intros H. unfold checkDec. by rewrite BitLen_fits. Qed.

Lemma Mul_NewDecFromInt (a u : Z) :
  Z.abs (a * u) < 2 ^ maxDecBitLen -> Mul (NewDecFromInt a) u = Done (a * u).
Proof.
  intros H. unfold Mul, NewDecFromInt.
  replace (a * P * u) with (a * u * P) by lia.
  rewrite chop_multiple. by apply checkDec_fits.
Qed.

(** The second branch of [ConvertCoin], line 80, on amounts and multipliers
    that keep the engine within its budget. *)
Lemma convert_line80 denom (a su du : Z) :
  validDenom denom = true ->
  0 <= a -> 0 <= su -> 0 < du ->
  a * su < 2 ^ maxDecBitLen -> (a * su) / du + 1 < 2 ^ maxBitLen ->
  (m ← Mul (NewDecFromInt a) su;
   q ← Quo m du;
   t ← TruncateInt q;
   c ← NewCoin denom t;
   Done (Ok c)) = Done (Ok (mkCoin denom (quoTruncated (a * su) du))).
Proof.
  intros Hv Ha Hsu Hdu Hmul Hquo. pose proof P_pos as HP.
  assert (Hn : 0 <= a * su) by nia.
  rewrite Mul_NewDecFromInt by lia. simpl.
  destruct (quoTruncated_range (a * su) du Hn Hdu) as ([Hc1 Hc2] & [Hr1 Hr2] & _).
  assert (Ht : 0 <= a * su / du) by (apply Z.div_pos; lia).
  unfold Quo. destruct (Z.eqb_spec du 0); [lia|].
  fold (quoRounded (a * su) du).
  rewrite checkDec_fits; cycle 1.
  { pose proof P_bits.
    assert (2 ^ maxDecBitLen = 2 ^ maxBitLen * 2 ^ DecimalPrecisionBits)
      by (by vm_compute).
    assert (0 < 2 ^ maxBitLen) by (by vm_compute).
    nia. }
  simpl. unfold TruncateInt, NewIntFromBigInt.
  fold (quoTruncated (a * su) du).
  rewrite BitLen_fits; [|by vm_compute|lia]. simpl.
  unfold NewCoin. rewrite Hv. simpl.
  destruct (Z.leb_spec 0 (quoTruncated (a * su) du)); [done|lia].
Qed.

(** Both branches of [ConvertCoin] past its three checks. *)
Lemma ConvertCoin_branches reg coin denom srcUnit dstUnit :
  0 <= Amount coin ->
  GetDenomUnit reg (Denom coin) = (srcUnit, true) ->
  validDenom denom = true ->
  GetDenomUnit reg denom = (dstUnit, true) ->
  (srcUnit = dstUnit ->
   ConvertCoin reg coin denom = Done (Ok (mkCoin denom (Amount coin))))
  /\ (srcUnit <> dstUnit -> 0 <= srcUnit -> 0 < dstUnit ->
      Amount coin * srcUnit < 2 ^ maxDecBitLen ->
      (Amount coin * srcUnit) / dstUnit + 1 < 2 ^ maxBitLen ->
      ConvertCoin reg coin denom
      = Done (Ok (mkCoin denom (quoTruncated (Amount coin * srcUnit) dstUnit)))).
Proof.
  intros Ha Hsrc Hv Hdst. split.
  - intros ->. unfold ConvertCoin, ValidateDenom. rewrite Hv, Hsrc, Hdst.
    unfold DecEqual. rewrite Z.eqb_refl. unfold NewCoin. rewrite Hv.
    destruct (Z.leb_spec 0 (Amount coin)); [done|lia].
  - intros Hne Hsu Hdu Hmul Hquo.
    unfold ConvertCoin, ValidateDenom. rewrite Hv, Hsrc, Hdst.
    unfold DecEqual. destruct (Z.eqb_spec srcUnit dstUnit); [done|].
    by apply convert_line80.
Qed.

(** C1, as stated, fails: with a registered target whose multiplier is zero
    the division of line 80 panics, and [ConvertCoin] returns no coin. *)
Lemma ConvertCoin_zero_target_panics :
  ~ (forall reg coin denom srcUnit dstUnit,
        0 <= Amount coin ->
        GetDenomUnit reg (Denom coin) = (srcUnit, true) ->
        validDenom denom = true ->
        GetDenomUnit reg denom = (dstUnit, true) ->
        exists amount,
          ConvertCoin reg coin denom = Done (Ok (mkCoin denom amount))
          /\ (srcUnit = dstUnit -> amount = Amount coin)
          /\ (srcUnit <> dstUnit ->
              amount = Z.quot (Amount coin * srcUnit) dstUnit)).
Proof.
  intros H.
  destruct (H regZeroBase (mkCoin "atom" 5) "uatom" one 0) as (amount & Hc & _);
    [done | by vm_compute | done | by vm_compute |].
  vm_compute in Hc. discriminate.
Qed.

(** C1, amended: for a coin of non-negative amount whose denomination is
    registered and a valid, registered target, [ConvertCoin] returns the
    amount unchanged under the target name when the two multipliers are
    equal (the coin itself when the target is its own denomination);
    otherwise, when the source multiplier is not negative, the target
    multiplier is positive and the product and the quotient stay within the
    bit budgets, it returns under the target name the engine's quotient
    of [amount * unit_src] by [unit_dst], rounded to 18 decimals and then
    truncated. *)
Theorem ConvertCoin_amount reg coin denom srcUnit dstUnit :
  0 <= Amount coin ->
  GetDenomUnit reg (Denom coin) = (srcUnit, true) ->
  validDenom denom = true ->
  GetDenomUnit reg denom = (dstUnit, true) ->
  (srcUnit = dstUnit ->
   ConvertCoin reg coin denom = Done (Ok (mkCoin denom (Amount coin))))
  /\ (denom = Denom coin -> ConvertCoin reg coin denom = Done (Ok coin))
  /\ (srcUnit <> dstUnit -> 0 <= srcUnit -> 0 < dstUnit ->
      Amount coin * srcUnit < 2 ^ maxDecBitLen ->
      (Amount coin * srcUnit) / dstUnit + 1 < 2 ^ maxBitLen ->
      ConvertCoin reg coin denom
      = Done (Ok (mkCoin denom (quoTruncated (Amount coin * srcUnit) dstUnit)))).
Proof.
  intros Ha Hsrc Hv Hdst.
  destruct (ConvertCoin_branches reg coin denom srcUnit dstUnit)
    as [Heq Hne]; try done.
  split; [exact Heq|]. split; [|exact Hne].
  intros ->. rewrite Heq by congruence. by destruct coin.
Qed.

Lemma ConvertCoin_amount_witness :
  ConvertCoin regAtom (mkCoin "atom" 1) "uatom"
    = Done (Ok (mkCoin "uatom" 1000000))
  /\ ConvertCoin regAtom (mkCoin "atom" 7) "atom" = Done (Ok (mkCoin "atom" 7))
  /\ ConvertCoin regAtom (mkCoin "uatom" 1999999) "atom"
    = Done (Ok (mkCoin "atom" 1)).
Proof.
  split; [|split].
  - destruct (ConvertCoin_amount regAtom (mkCoin "atom" 1) "uatom" one 1000000000000)
      as (_ & _ & H); [by vm_compute ..|].
    rewrite H; by vm_compute.
  - destruct (ConvertCoin_amount regAtom (mkCoin "atom" 7) "atom" one one)
      as (_ & H & _); [by vm_compute ..|].
    by apply H.
  - destruct (ConvertCoin_amount regAtom (mkCoin "uatom" 1999999) "atom" 1000000000000 one)
      as (_ & _ & H); [by vm_compute ..|].
    rewrite H; by vm_compute.
Defined.

(** ** Aborts *)

(** C3, as stated, fails: a quotient beyond the 315 bits is raised by [Quo]
    as a panic, which neither conversion catches or turns into an error
    value. *)
Lemma Convert_overflow_panics :
  ~ (forall reg coin dcoin denom srcUnit dstUnit,
        0 <= Amount coin -> 0 <= DAmount dcoin ->
        Denom coin = DDenom dcoin ->
        GetDenomUnit reg (Denom coin) = (srcUnit, true) ->
        GetDenomUnit reg denom = (dstUnit, true) ->
        returns (ConvertCoin reg coin denom)
        /\ returns (ConvertDecCoin reg dcoin denom)).
Proof.
  intros H.
  destruct (H regWide (mkCoin "atom" 1) (mkDecCoin "atom" one) "uatom" (10 ^ 78) 1)
    as [[r Hr] _]; [done | done | done | by vm_compute | by vm_compute |].
  vm_compute in Hr. discriminate.
Qed.

Lemma bind_Done_inv {A B : Type} (m : Run A) (f : A -> Run B) (b : B) :
  m ≫= f = Done b -> exists a, m = Done a /\ f a = Done b.
Proof. destruct m as [a|p]; simpl; [eauto | discriminate]. Qed.

Lemma NewCoin_Done denom amount c :
  NewCoin denom amount = Done c -> c = mkCoin denom amount.
Proof. unfold NewCoin. case_match; congruence. Qed.

Lemma NewDecCoinFromDec_Done denom amount c :
  NewDecCoinFromDec denom amount = Done c -> c = mkDecCoin denom amount.
Proof. unfold NewDecCoinFromDec. case_match; congruence. Qed.

(** C3, amended: the error values of [ConvertCoin] and [ConvertDecCoin] are
    [InvalidDenom] for a target outside the grammar, [SourceNotRegistered]
    and [DestNotRegistered] for a name [GetDenomUnit] does not find, and no
    other; a coin they return carries the target name; and they panic only
    past the three checks, where with equal multipliers the one cause is a
    negative amount.  A precision overflow is such a panic, not an error
    value: when the product fits the 315 bits and the quotient of line 80
    does not, both conversions panic with the overflow of [Quo]. *)
Theorem Convert_outcomes reg coin dcoin denom :
  match ConvertCoin reg coin denom with
  | Done (Err e) =>
      (e = InvalidDenom denom /\ validDenom denom = false)
      \/ (e = SourceNotRegistered (Denom coin)
          /\ snd (GetDenomUnit reg (Denom coin)) = false)
      \/ (e = DestNotRegistered denom /\ snd (GetDenomUnit reg denom) = false)
  | Done (Ok c) => Denom c = denom
  | Panic p =>
      validDenom denom = true
      /\ snd (GetDenomUnit reg (Denom coin)) = true
      /\ snd (GetDenomUnit reg denom) = true
      /\ (fst (GetDenomUnit reg (Denom coin)) = fst (GetDenomUnit reg denom) ->
          p = InvalidCoin /\ Amount coin < 0)
  end
  /\
  match ConvertDecCoin reg dcoin denom with
  | Done (Err e) =>
      (e = InvalidDenom denom /\ validDenom denom = false)
      \/ (e = SourceNotRegistered (DDenom dcoin)
          /\ snd (GetDenomUnit reg (DDenom dcoin)) = false)
      \/ (e = DestNotRegistered denom /\ snd (GetDenomUnit reg denom) = false)
  | Done (Ok c) => DDenom c = denom
  | Panic p =>
      validDenom denom = true
      /\ snd (GetDenomUnit reg (DDenom dcoin)) = true
      /\ snd (GetDenomUnit reg denom) = true
      /\ (fst (GetDenomUnit reg (DDenom dcoin)) = fst (GetDenomUnit reg denom) ->
          p = InvalidCoin /\ DAmount dcoin < 0)
  end
  /\
  (forall srcUnit dstUnit,
      GetDenomUnit reg (Denom coin) = (srcUnit, true) ->
      GetDenomUnit reg denom = (dstUnit, true) ->
      srcUnit <> dstUnit -> dstUnit <> 0 ->
      BitLen (Amount coin * srcUnit) <= maxDecBitLen ->
      maxDecBitLen < BitLen (quoRounded (Amount coin * srcUnit) dstUnit) ->
      ConvertCoin reg coin denom = Panic IntOverflow
      /\ ConvertDecCoin reg (mkDecCoin (Denom coin) (NewDecFromInt (Amount coin))) denom
         = Panic IntOverflow).
Proof.
  split; [|split]; cycle 2.
  { intros su du Hs Hd Hne Hdu Hfit Hover.
    assert (Hv : validDenom denom = true).
    { unfold GetDenomUnit, ValidateDenom in Hd.
      destruct (validDenom denom); [done | discriminate]. }
    assert (Hmul : Mul (NewDecFromInt (Amount coin)) su = Done (Amount coin * su)).
    { unfold Mul, NewDecFromInt.
      replace (Amount coin * P * su) with (Amount coin * su * P) by lia.
      rewrite chop_multiple. unfold checkDec. rewrite Z.gtb_ltb.
      destruct (Z.ltb_spec maxDecBitLen (BitLen (Amount coin * su))); [lia|done]. }
    assert (Hquo : Quo (Amount coin * su) du = Panic IntOverflow).
    { unfold Quo. destruct (Z.eqb_spec du 0); [done|].
      fold (quoRounded (Amount coin * su) du). unfold checkDec. rewrite Z.gtb_ltb.
      destruct (Z.ltb_spec maxDecBitLen (BitLen (quoRounded (Amount coin * su) du)));
        [done|lia]. }
    split.
    - unfold ConvertCoin, ValidateDenom. rewrite Hv, Hs, Hd.
      unfold DecEqual. destruct (Z.eqb_spec su du); [done|].
      rewrite Hmul. simpl. by rewrite Hquo.
    - unfold ConvertDecCoin, ValidateDenom. simpl. rewrite Hv, Hs, Hd.
      unfold DecEqual. destruct (Z.eqb_spec su du); [done|].
      rewrite Hmul. simpl. by rewrite Hquo. }
  - unfold ConvertCoin, ValidateDenom.
    destruct (validDenom denom) eqn:Hv; [|by left].
    destruct (GetDenomUnit reg (Denom coin)) as [su [|]] eqn:Hs; [|by right; left].
    destruct (GetDenomUnit reg denom) as [du [|]] eqn:Hd; [|by right; right].
    simpl. unfold DecEqual. destruct (Z.eqb_spec su du) as [->|Hne].
    + unfold NewCoin. rewrite Hv. simpl.
      destruct (Z.leb_spec 0 (Amount coin)); simpl; [done|].
      by repeat split.
    + destruct (_ ≫= _) as [[c|e]|p] eqn:Hrun; [| |by repeat split].
      * apply bind_Done_inv in Hrun as (m & _ & Hrun).
        apply bind_Done_inv in Hrun as (q & _ & Hrun).
        apply bind_Done_inv in Hrun as (t & _ & Hrun).
        apply bind_Done_inv in Hrun as (c' & Hc & Hrun).
        apply NewCoin_Done in Hc as ->. by injection Hrun as <-.
      * apply bind_Done_inv in Hrun as (m & _ & Hrun).
        apply bind_Done_inv in Hrun as (q & _ & Hrun).
        apply bind_Done_inv in Hrun as (t & _ & Hrun).
        apply bind_Done_inv in Hrun as (c' & _ & Hrun). discriminate.
  - unfold ConvertDecCoin, ValidateDenom.
    destruct (validDenom denom) eqn:Hv; [|by left].
    destruct (GetDenomUnit reg (DDenom dcoin)) as [su [|]] eqn:Hs; [|by right; left].
    destruct (GetDenomUnit reg denom) as [du [|]] eqn:Hd; [|by right; right].
    simpl. unfold DecEqual. destruct (Z.eqb_spec su du) as [->|Hne].
    + unfold NewDecCoinFromDec. rewrite Hv. simpl.
      destruct (Z.leb_spec 0 (DAmount dcoin)); simpl; [done|].
      by repeat split.
    + destruct (_ ≫= _) as [[c|e]|p] eqn:Hrun; [| |by repeat split].
      * apply bind_Done_inv in Hrun as (m & _ & Hrun).
        apply bind_Done_inv in Hrun as (q & _ & Hrun).
        apply bind_Done_inv in Hrun as (c' & Hc & Hrun).
        apply NewDecCoinFromDec_Done in Hc as ->. by injection Hrun as <-.
      * apply bind_Done_inv in Hrun as (m & _ & Hrun).
        apply bind_Done_inv in Hrun as (q & _ & Hrun).
        apply bind_Done_inv in Hrun as (c' & _ & Hrun). discriminate.
Qed.

Lemma Convert_outcomes_witness :
  (ConvertCoin regAtom (mkCoin "atom" (-1)) "atom" = Panic InvalidCoin
   /\ (InvalidCoin = InvalidCoin /\ -1 < 0))
  /\ (ConvertCoin regWide (mkCoin "atom" 1) "uatom" = Panic IntOverflow
      /\ ConvertDecCoin regWide (mkDecCoin "atom" one) "uatom" = Panic IntOverflow).
Proof.
  split.
  - assert (H1 : ConvertCoin regAtom (mkCoin "atom" (-1)) "atom" = Panic InvalidCoin)
      by (by vm_compute).
    pose proof (Convert_outcomes regAtom (mkCoin "atom" (-1))
                  (mkDecCoin "atom" (-1)) "atom") as [Hc _].
    rewrite H1 in Hc. destruct Hc as (_ & _ & _ & Hp).
    split; [exact H1|]. apply Hp. by vm_compute.
  - pose proof (Convert_outcomes regWide (mkCoin "atom" 1)
                  (mkDecCoin "atom" one) "uatom") as (_ & _ & Ho).
    apply (Ho (10 ^ 78) 1); by vm_compute.
Defined.

(** What the two conversions do at an overflow, at a zero divisor and at
    each of the three failing checks. *)
Lemma conversion_examples :
  ConvertCoin regWide (mkCoin "atom" 1) "uatom" = Panic IntOverflow
  /\ ConvertDecCoin regWide (mkDecCoin "atom" one) "uatom" = Panic IntOverflow
  /\ ConvertDecCoin regZeroBase (mkDecCoin "atom" one) "uatom" = Panic DivisionByZero
  /\ ConvertCoin regAtom (mkCoin "atom" 1) "Atom!" = Done (Err (InvalidDenom "Atom!"))
  /\ ConvertCoin regAtom (mkCoin "btc" 1) "atom" = Done (Err (SourceNotRegistered "btc"))
  /\ ConvertCoin regAtom (mkCoin "atom" 1) "btc" = Done (Err (DestNotRegistered "btc")).
Proof. by vm_compute. Qed.

(** ** Truncation *)

(** C4, as stated, fails: one [aaa] is 0.9999999999999999995 [bbb]; [Quo]
    rounds that to 1.000000000000000000 before [TruncateInt] sees it, and
    [ConvertCoin] returns 1, the integer above the quotient. *)
Lemma ConvertCoin_rounds_up_once :
  ~ (forall reg coin denom srcUnit dstUnit c,
        0 <= Amount coin -> 0 <= srcUnit -> 0 < dstUnit ->
        GetDenomUnit reg (Denom coin) = (srcUnit, true) ->
        GetDenomUnit reg denom = (dstUnit, true) ->
        Z.rem (Amount coin * srcUnit) dstUnit <> 0 ->
        ConvertCoin reg coin denom = Done (Ok c) ->
        Amount c = Z.quot (Amount coin * srcUnit) dstUnit).
Proof.
  intros H.
  assert (Hc : Amount (mkCoin "bbb" 1) = Z.quot (1 * (2 * one - 1)) (2 * one)).
  { apply (H regNearTwo (mkCoin "aaa" 1) "bbb" (2 * one - 1) (2 * one));
      by vm_compute. }
  vm_compute in Hc. discriminate.
Qed.

(** C4, amended: within the bit budgets, for a non-negative amount, a
    non-negative source multiplier and a positive target multiplier that
    differ, [ConvertCoin] returns the quotient truncated toward zero or the
    integer just above it; it is the truncated quotient whenever the exact
    quotient is more than half of [10^-18] below the next integer, which
    covers a unit ratio of 1:3. *)
Theorem ConvertCoin_truncation reg coin denom srcUnit dstUnit :
  0 <= Amount coin -> 0 <= srcUnit -> 0 < dstUnit -> srcUnit <> dstUnit ->
  GetDenomUnit reg (Denom coin) = (srcUnit, true) ->
  GetDenomUnit reg denom = (dstUnit, true) ->
  Amount coin * srcUnit < 2 ^ maxDecBitLen ->
  Z.quot (Amount coin * srcUnit) dstUnit + 1 < 2 ^ maxBitLen ->
  exists r,
    ConvertCoin reg coin denom = Done (Ok (mkCoin denom r))
    /\ Z.quot (Amount coin * srcUnit) dstUnit <= r
       <= Z.quot (Amount coin * srcUnit) dstUnit + 1
    /\ (dstUnit < 2 * P * (dstUnit - Z.rem (Amount coin * srcUnit) dstUnit) ->
        r = Z.quot (Amount coin * srcUnit) dstUnit)
    /\ (dstUnit = 3 * srcUnit -> r = Z.quot (Amount coin) 3).
Proof.
  intros Ha Hsu Hdu Hne Hsrc Hdst Hmul Hquo.
  assert (Hn : 0 <= Amount coin * srcUnit) by nia.
  rewrite Z.quot_div_nonneg in * by lia. rewrite Z.rem_mod_nonneg by lia.
  assert (Hv : validDenom denom = true).
  { unfold GetDenomUnit, ValidateDenom in Hdst.
    destruct (validDenom denom); [done | discriminate]. }
  exists (quoTruncated (Amount coin * srcUnit) dstUnit).
  destruct (ConvertCoin_branches reg coin denom srcUnit dstUnit) as [_ Hc];
    try done.
  split; [by apply Hc|].
  destruct (quoTruncated_range (Amount coin * srcUnit) dstUnit Hn Hdu)
    as (_ & Hr & Hexact).
  split; [exact Hr|]. split; [exact Hexact|].
  intros ->. pose proof P_pos.
  assert (Hs : 0 < srcUnit) by lia.
  rewrite Z.quot_div_nonneg by lia.
  rewrite Hexact.
  - replace (3 * srcUnit) with (srcUnit * 3) by lia.
    rewrite (Z.mul_comm (Amount coin)).
    rewrite Z.div_mul_cancel_l by lia. done.
  - replace (3 * srcUnit) with (srcUnit * 3) by lia.
    rewrite (Z.mul_comm (Amount coin)).
    rewrite Z.mul_mod_distr_l by lia.
    pose proof (Z.mod_pos_bound (Amount coin) 3 ltac:(lia)).
    assert (1 < P) by (by vm_compute). nia.
Qed.

Lemma ConvertCoin_truncation_witness :
  let reg := snd (RegisterDenom emptyRegistry "third" one "whole" (3 * one)) in
  exists r,
    ConvertCoin reg (mkCoin "third" 5) "whole" = Done (Ok (mkCoin "whole" r))
    /\ r = 1.
Proof.
  cbv zeta.
  destruct (ConvertCoin_truncation
              (snd (RegisterDenom emptyRegistry "third" one "whole" (3 * one)))
              (mkCoin "third" 5) "whole" one (3 * one))
    as (r & Hr & _ & _ & H3); [by vm_compute ..|].
  exists r. split; [exact Hr|]. by apply H3.
Defined.

End Conversion.


(** * Properties of the normalisation *)

Section Normalisation.

Implicit Types (reg : Registry) (coin : Coin) (dcoin : DecCoin).

(** C5, as stated, fails: [NormalizeCoin] hands the coin to [ConvertCoin],
    and where that panics (here on a base of multiplier zero) so does
    [NormalizeCoin]; it is not total. *)
Lemma NormalizeCoin_not_total :
  ~ (forall reg coin,
        validDenom (Denom coin) = true -> 0 <= Amount coin ->
        returns (NormalizeCoin reg coin)).
Proof.
  intros H.
  destruct (H regZeroBase (mkCoin "atom" 5)) as [c Hc]; [done | done |].
  vm_compute in Hc. discriminate.
Qed.

(** C5, amended: [NormalizeCoin] and [NormalizeDecCoin] return no error
    value.  They return the input coin when the base lookup fails and when
    the conversion returns an error, and the converted coin when the
    conversion returns one; they return in each of these cases, and a panic
    of theirs is a panic of the conversion. *)
Theorem Normalize_fallback reg coin dcoin :
  ((forall e, GetBaseDenom reg (Denom coin) = Err e ->
              NormalizeCoin reg coin = Done coin)
   /\ (forall base e, GetBaseDenom reg (Denom coin) = Ok base ->
         ConvertCoin reg coin base = Done (Err e) ->
         NormalizeCoin reg coin = Done coin)
   /\ (forall base c, GetBaseDenom reg (Denom coin) = Ok base ->
         ConvertCoin reg coin base = Done (Ok c) ->
         NormalizeCoin reg coin = Done c)
   /\ (forall p, NormalizeCoin reg coin = Panic p ->
         exists base, GetBaseDenom reg (Denom coin) = Ok base
                      /\ ConvertCoin reg coin base = Panic p))
  /\
  ((forall e, GetBaseDenom reg (DDenom dcoin) = Err e ->
              NormalizeDecCoin reg dcoin = Done dcoin)
   /\ (forall base e, GetBaseDenom reg (DDenom dcoin) = Ok base ->
         ConvertDecCoin reg dcoin base = Done (Err e) ->
         NormalizeDecCoin reg dcoin = Done dcoin)
   /\ (forall base c, GetBaseDenom reg (DDenom dcoin) = Ok base ->
         ConvertDecCoin reg dcoin base = Done (Ok c) ->
         NormalizeDecCoin reg dcoin = Done c)
   /\ (forall p, NormalizeDecCoin reg dcoin = Panic p ->
         exists base, GetBaseDenom reg (DDenom dcoin) = Ok base
                      /\ ConvertDecCoin reg dcoin base = Panic p)).
Proof.
  split.
  - unfold NormalizeCoin. repeat split.
    + by intros e ->.
    + by intros base e -> ->.
    + by intros base c -> ->.
    + intros p. destruct (GetBaseDenom reg (Denom coin)) as [base|e]; [|done].
      destruct (ConvertCoin reg coin base) as [[c|e]|p'] eqn:Hc; simpl; try done.
      intros [= ->]. eauto.
  - unfold NormalizeDecCoin. repeat split.
    + by intros e ->.
    + by intros base e -> ->.
    + by intros base c -> ->.
    + intros p. destruct (GetBaseDenom reg (DDenom dcoin)) as [base|e]; [|done].
      destruct (ConvertDecCoin reg dcoin base) as [[c|e]|p'] eqn:Hc; simpl; try done.
      intros [= ->]. eauto.
Qed.

Lemma Normalize_fallback_witness :
  NormalizeCoin regAtom (mkCoin "btc" 3) = Done (mkCoin "btc" 3)
  /\ NormalizeCoin regShortBase (mkCoin "atom" 3) = Done (mkCoin "atom" 3)
  /\ NormalizeCoin regAtom (mkCoin "atom" 3) = Done (mkCoin "uatom" 3000000)
  /\ NormalizeDecCoin regAtom (mkDecCoin "btc" 3) = Done (mkDecCoin "btc" 3)
  /\ NormalizeDecCoin regShortBase (mkDecCoin "atom" 3) = Done (mkDecCoin "atom" 3)
  /\ NormalizeDecCoin regAtom (mkDecCoin "atom" 1500000000000000000)
     = Done (mkDecCoin "uatom" 1500000000000000000000000)
  /\ (exists base, GetBaseDenom regZeroBase "atom" = Ok base
        /\ ConvertCoin regZeroBase (mkCoin "atom" 5) base = Panic DivisionByZero)
  /\ (exists base, GetBaseDenom regZeroBase "atom" = Ok base
        /\ ConvertDecCoin regZeroBase (mkDecCoin "atom" 5) base = Panic DivisionByZero).
Proof.
  pose proof (Normalize_fallback regAtom (mkCoin "btc" 3) (mkDecCoin "btc" 3))
    as [(H1 & _) (H4 & _)].
  pose proof (Normalize_fallback regShortBase (mkCoin "atom" 3) (mkDecCoin "atom" 3))
    as [(_ & H2 & _) (_ & H5 & _)].
  pose proof (Normalize_fallback regAtom (mkCoin "atom" 3)
                (mkDecCoin "atom" 1500000000000000000))
    as [(_ & _ & H3 & _) (_ & _ & H6 & _)].
  pose proof (Normalize_fallback regZeroBase (mkCoin "atom" 5) (mkDecCoin "atom" 5))
    as [(_ & _ & _ & H7) (_ & _ & _ & H8)].
  split; [by apply (H1 NotRegistered)|].
  split; [by apply (H2 "ab" (InvalidDenom "ab"))|].
  split; [by apply (H3 "uatom")|].
  split; [by apply (H4 NotRegistered)|].
  split; [by apply (H5 "ab" (InvalidDenom "ab"))|].
  split; [by apply (H6 "uatom")|].
  split; [by apply H7 | by apply H8].
Defined.

(** ** Lists of coins *)

Lemma normalizeLoop_Forall2 reg (coins : list DecCoin) (result out : list Coin) :
  normalizeLoop reg coins result = Done out <->
  exists news : list Coin, out = (result ++ news)%list
    /\ Forall2 (fun c n => normalizeTruncate reg c = Done n) coins news.
Proof.
  revert result out. induction coins as [|c coins IH]; intros result out; simpl.
  - split.
    + intros [= <-]. exists []. by rewrite app_nil_r.
    + intros (news & -> & Hall). inversion Hall. by rewrite app_nil_r.
  - destruct (normalizeTruncate reg c) as [n|p] eqn:Hn; simpl.
    + rewrite IH. split.
      * intros (news & -> & Hall). exists (n :: news).
        rewrite <- app_assoc. split; [done|]. by constructor.
      * intros (news & -> & Hall). inversion Hall as [|? n' ? news' Hn' Hall']; subst.
        rewrite Hn in Hn'. injection Hn' as <-.
        exists news'. by rewrite <- app_assoc.
    + split; [discriminate|].
      intros (news & _ & Hall). inversion Hall; congruence.
Qed.

Lemma normalizeLoop_returns reg (coins : list DecCoin) (result : list Coin) :
  Forall (fun c => returns (normalizeTruncate reg c)) coins ->
  returns (normalizeLoop reg coins result).
Proof.
  revert result. induction coins as [|c coins IH]; intros result Hall; simpl.
  - by eexists.
  - inversion Hall as [|? ? [n Hn] Hall']; subst. rewrite Hn. simpl. by apply IH.
Qed.

Lemma normalizeLoop_Panic reg (coins : list DecCoin) (result : list Coin) (p : Abort) :
  normalizeLoop reg coins result = Panic p <->
  exists before c after,
    coins = (before ++ c :: after)%list
    /\ Forall (fun x => returns (normalizeTruncate reg x)) before
    /\ normalizeTruncate reg c = Panic p.
Proof.
  revert result. induction coins as [|c coins IH]; intros result; simpl.
  - split; [done|]. intros (before & x & after & Heq & _). by destruct before.
  - destruct (normalizeTruncate reg c) as [n|q] eqn:Hn; simpl.
    + rewrite IH. split.
      * intros (before & x & after & -> & Hall & Hx).
        exists (c :: before), x, after. split; [done|]. split; [|done].
        constructor; [by exists n | done].
      * intros (before & x & after & Heq & Hall & Hx).
        destruct before as [|b before]; simpl in Heq.
        -- injection Heq as <- <-. congruence.
        -- injection Heq as <- ->. inversion Hall; subst. eauto 10.
    + split.
      * intros [= <-]. exists [], c, coins. split; [done|]. split; [constructor|done].
      * intros (before & x & after & Heq & Hall & Hx).
        destruct before as [|b before]; simpl in Heq.
        -- injection Heq as <- <-. congruence.
        -- injection Heq as <- ->. inversion Hall as [|? ? [n Hn'] ?]; subst.
           congruence.
Qed.

(** The coins a list normalises to are determined by the list. *)
Lemma normalizeTruncate_Forall2_inj reg (coins : list DecCoin) (out out' : list Coin) :
  Forall2 (fun c n => normalizeTruncate reg c = Done n) coins out ->
  Forall2 (fun c n => normalizeTruncate reg c = Done n) coins out' ->
  out = out'.
Proof.
  intros H. revert out'.
  induction H as [|c n coins out Hn _ IH]; intros out' H';
    inversion H' as [|? n' ? out'' Hn' Hall']; subst; [done|].
  f_equal; [congruence | by apply IH].
Qed.

(** ** The parser's list *)

Lemma strLt_trans (a b c : string) :
  strLt a b = true -> strLt b c = true -> strLt a c = true.
Proof.
  revert b c. induction a as [|x a IH]; intros [|y b] [|z c]; simpl; try done.
  intros H1 H2.
  apply orb_true_iff in H1 as [H1|[H1 H1']%andb_true_iff];
  apply orb_true_iff in H2 as [H2|[H2 H2']%andb_true_iff];
  apply orb_true_iff.
  - left. apply N.ltb_lt in H1, H2. apply N.ltb_lt. lia.
  - left. apply N.ltb_lt in H1. apply N.eqb_eq in H2. apply N.ltb_lt. lia.
  - left. apply N.eqb_eq in H1. apply N.ltb_lt in H2. apply N.ltb_lt. lia.
  - right. apply N.eqb_eq in H1, H2. apply andb_true_iff. split.
    + apply N.eqb_eq. lia.
    + by apply (IH b c).
Qed.

Lemma validateFrom_sorted (low : string) (coins : list DecCoin) :
  validateFrom low coins = true ->
  Forall (fun c => strLt low (DDenom c) = true) coins
  /\ StronglySorted denomLt coins.
Proof.
  revert low. induction coins as [|c coins IH]; intros low; simpl.
  - intros _. split; constructor.
  - intros H. apply andb_true_iff in H as [H Hrest].
    apply andb_true_iff in H as [H _]. apply andb_true_iff in H as [_ Hlow].
    destruct (IH _ Hrest) as [Hall Hsorted].
    split.
    + constructor; [done|].
      eapply Forall_impl; [exact Hall|]. intros x Hx. simpl in Hx.
      by apply (strLt_trans low (DDenom c)).
    + by constructor.
Qed.

Lemma ValidateDecCoins_sorted (coins : list DecCoin) :
  ValidateDecCoins coins = true -> StronglySorted denomLt coins.
Proof.
  destruct coins as [|c coins]; simpl; [constructor|].
  intros H. apply andb_true_iff in H as [_ Hrest].
  destruct (validateFrom_sorted _ _ Hrest). by constructor.
Qed.

Lemma insertByDenom_Permutation (c : DecCoin) (l : list DecCoin) :
  insertByDenom c l ≡ₚ c :: l.
Proof.
  induction l as [|x l IH]; simpl; [done|].
  destruct (strLt (DDenom c) (DDenom x)); [done|].
  rewrite IH. apply Permutation_swap.
Qed.

Lemma SortDecCoins_Permutation (l : list DecCoin) : SortDecCoins l ≡ₚ l.
Proof.
  induction l as [|x l IH]; simpl; [done|].
  rewrite insertByDenom_Permutation. by rewrite IH.
Qed.

Lemma parseEach_Forall2 (pieces : list (list ascii)) (parsed : list DecCoin) :
  parseEach pieces = Done (Ok parsed) ->
  Forall2 (fun piece c => ParseDecCoin piece = Done (Ok c)) pieces parsed.
Proof.
  revert parsed. induction pieces as [|p pieces IH]; intros parsed; simpl.
  - intros [= <-]. constructor.
  - destruct (ParseDecCoin p) as [[c|e]|a] eqn:Hp; simpl; try done.
    destruct (parseEach pieces) as [[cs|e]|a]; simpl; try done.
    intros [= <-]. constructor; [done|]. by apply IH.
Qed.

(** What a successful [ParseDecCoins] delivers: the coins of the pieces
    between the commas, without the zero ones, in ascending order of their
    names. *)
Lemma ParseDecCoins_delivers (s : string) (coins : list DecCoin) :
  ParseDecCoins s = Done (Ok (Some coins)) ->
  StronglySorted denomLt coins
  /\ exists parsed,
      Forall2 (fun piece c => ParseDecCoin piece = Done (Ok c))
        (Split (TrimSpace (list_ascii_of_string s))) parsed
      /\ coins ≡ₚ filter (fun c => DAmount c <> 0) parsed.
Proof.
  unfold ParseDecCoins.
  destruct (TrimSpace (list_ascii_of_string s)) as [|x trimmed] eqn:Ht; [done|].
  destruct (parseEach (Split (x :: trimmed))) as [[parsed|e]|a] eqn:Hp;
    simpl; try done.
  destruct (ValidateDecCoins (sanitizeDecCoins parsed)) eqn:Hv; [|done].
  intros [= <-]. split; [by apply ValidateDecCoins_sorted|].
  exists parsed. split; [by apply parseEach_Forall2|].
  apply SortDecCoins_Permutation.
Qed.

Lemma strLt_irrefl (a : string) : strLt a a = false.
Proof.
  induction a as [|x a IH]; simpl; [done|].
  rewrite N.ltb_irrefl, N.eqb_refl. exact IH.
Qed.

(** Names in strictly ascending order do not repeat. *)
Lemma StronglySorted_denomLt_NoDup (l : list DecCoin) :
  StronglySorted denomLt l -> NoDup (DDenom <$> l).
Proof.
  induction 1 as [|c l Hs IH Hall]; simpl; [by apply NoDup_nil_2|].
  apply NoDup_cons_2; [|done].
  intros (c' & Heq & Hin)%list_elem_of_fmap.
  rewrite Forall_forall in Hall. specialize (Hall c' Hin).
  unfold denomLt in Hall. rewrite Heq, strLt_irrefl in Hall. discriminate.
Qed.

Lemma parseEach_complete (pieces : list (list ascii)) (parsed : list DecCoin) :
  Forall2 (fun piece c => ParseDecCoin piece = Done (Ok c)) pieces parsed ->
  parseEach pieces = Done (Ok parsed).
Proof.
  induction 1 as [|p c pieces parsed Hp _ IH]; simpl; [done|].
  rewrite Hp. simpl. by rewrite IH.
Qed.

(** C7, as stated, fails on both counts.  The coins of ["2uatom,1atom"] come
    back in the order of their names, [atom] first; and ["1atom,2atom"],
    each piece of which parses, is refused for its repeated name. *)
Lemma ParseCoinsNormalized_sorts_and_refuses_duplicates :
  ~ (forall reg s parsed out,
        Forall2 (fun piece c => ParseDecCoin piece = Done (Ok c))
          (Split (list_ascii_of_string s)) parsed ->
        ParseCoinsNormalized reg s = Done (Ok (Some out)) ->
        Forall2 (fun c n => normalizeTruncate reg c = Done n) parsed out)
  /\
  ~ (forall reg s parsed,
        Forall2 (fun piece c => ParseDecCoin piece = Done (Ok c))
          (Split (list_ascii_of_string s)) parsed ->
        Forall (fun c => returns (normalizeTruncate reg c)) parsed ->
        exists out, ParseCoinsNormalized reg s = Done (Ok (Some out))
                    /\ length out = length parsed).
Proof.
  split.
  - intros H.
    specialize (H regAtom "2uatom,1atom"
                  [mkDecCoin "uatom" (2 * one); mkDecCoin "atom" one]
                  [mkCoin "uatom" 1000000; mkCoin "uatom" 2]).
    assert (Hall : Forall2 (fun c n => normalizeTruncate regAtom c = Done n)
                     [mkDecCoin "uatom" (2 * one); mkDecCoin "atom" one]
                     [mkCoin "uatom" 1000000; mkCoin "uatom" 2]).
    { apply H; [|by vm_compute]. repeat constructor. }
    inversion Hall as [|? ? ? ? Hfirst _]; subst.
    vm_compute in Hfirst. discriminate.
  - intros H.
    destruct (H regAtom "1atom,2atom"
                [mkDecCoin "atom" one; mkDecCoin "atom" (2 * one)])
      as (out & Hout & _).
    + repeat constructor.
    + repeat constructor; eexists; by vm_compute.
    + vm_compute in Hout. discriminate.
Qed.

(** C7, amended.  When [ParseDecCoins] accepts the text, the coins it
    delivers are those of the pieces between the commas, zero amounts
    dropped, in strictly ascending order of their names, and
    [ParseCoinsNormalized] normalises them one by one in that order: it
    returns a list exactly when each of them normalises, one coin for each
    and in that order, without merging coins that normalise to the same
    base (["1atom,2uatom"] gives two coins in [uatom]); it panics exactly
    with the panic of the first coin whose normalisation panics; it returns
    no error value and no [nil] slice then.  When every piece parses and,
    zero amounts apart, two pieces carry the same name, the text is refused
    with the parse error; a name repeated by zero amounts only is not
    (["0atom,1atom"] gives one coin). *)
Theorem ParseCoinsNormalized_order reg (s : string) :
  (forall coins, ParseDecCoins s = Done (Ok (Some coins)) ->
     StronglySorted denomLt coins
     /\ (exists parsed,
           Forall2 (fun piece c => ParseDecCoin piece = Done (Ok c))
             (Split (TrimSpace (list_ascii_of_string s))) parsed
           /\ coins ≡ₚ filter (fun c => DAmount c <> 0) parsed)
     /\ (forall out, ParseCoinsNormalized reg s = Done (Ok (Some out)) <->
           Forall2 (fun c n => normalizeTruncate reg c = Done n) coins out)
     /\ (Forall (fun c => returns (normalizeTruncate reg c)) coins <->
           returns (ParseCoinsNormalized reg s))
     /\ (forall p, ParseCoinsNormalized reg s = Panic p <->
           exists before c after,
             coins = (before ++ c :: after)%list
             /\ Forall (fun x => returns (normalizeTruncate reg x)) before
             /\ normalizeTruncate reg c = Panic p)
     /\ (forall r, ParseCoinsNormalized reg s = Done r ->
           exists out, r = Ok (Some out)))
  /\ (forall parsed,
        Forall2 (fun piece c => ParseDecCoin piece = Done (Ok c))
          (Split (TrimSpace (list_ascii_of_string s))) parsed ->
        ~ NoDup (DDenom <$> filter (fun c => DAmount c <> 0) parsed) ->
        ParseDecCoins s = Done (Err ParseError)
        /\ ParseCoinsNormalized reg s = Done (Err ParseError)).
Proof.
  split.
  - intros coins Hparse.
    destruct (ParseDecCoins_delivers s coins Hparse) as [Hsorted Hpieces].
    split; [exact Hsorted|]. split; [exact Hpieces|].
    assert (Hrun : ParseCoinsNormalized reg s
                   = (result ← normalizeLoop reg coins []; Done (Ok (Some result)))).
    { unfold ParseCoinsNormalized. rewrite Hparse. simpl.
      by destruct (normalizeLoop reg coins []). }
    assert (Hout : forall out, ParseCoinsNormalized reg s = Done (Ok (Some out)) <->
              Forall2 (fun c n => normalizeTruncate reg c = Done n) coins out).
    { intros out. rewrite Hrun.
      destruct (normalizeLoop reg coins []) as [res|p] eqn:Hl; simpl.
      - apply normalizeLoop_Forall2 in Hl as (news & -> & Hall). simpl. split.
        + by intros [= <-].
        + intros Hall'. do 3 f_equal. by eapply normalizeTruncate_Forall2_inj.
      - split; [done|]. intros Hall.
        assert (Hx : normalizeLoop reg coins [] = Done out)
          by (apply normalizeLoop_Forall2; eauto).
        congruence. }
    split; [exact Hout|]. split; [|split].
    + split.
      * intros Hret. destruct (normalizeLoop_returns reg coins [] Hret) as [out Hl].
        rewrite Hrun, Hl. by eexists.
      * intros [r Hr]. rewrite Hrun in Hr.
        destruct (normalizeLoop reg coins []) as [res|p] eqn:Hl; [|done].
        apply normalizeLoop_Forall2 in Hl as (news & _ & Hall).
        clear -Hall. induction Hall; constructor; [by eexists | done].
    + intros p. rewrite <- normalizeLoop_Panic with (result := []).
      rewrite Hrun. destruct (normalizeLoop reg coins []); simpl; split; congruence.
    + intros r. rewrite Hrun.
      destruct (normalizeLoop reg coins []) as [res|p]; simpl; [|done].
      intros [= <-]. by eexists.
  - intros parsed Hpieces Hdup.
    assert (Hp : ParseDecCoins s = Done (Err ParseError)).
    { unfold ParseDecCoins.
      destruct (TrimSpace (list_ascii_of_string s)) as [|x trimmed] eqn:Ht.
      { simpl in Hpieces. inversion Hpieces as [|? ? ? ? Hnil _]; subst.
        vm_compute in Hnil. discriminate. }
      rewrite (parseEach_complete _ _ Hpieces). simpl.
      destruct (ValidateDecCoins (sanitizeDecCoins parsed)) eqn:Hv; [|done].
      exfalso. apply Hdup.
      apply ValidateDecCoins_sorted, StronglySorted_denomLt_NoDup in Hv.
      unfold sanitizeDecCoins in Hv. by rewrite SortDecCoins_Permutation in Hv. }
    split; [exact Hp|]. unfold ParseCoinsNormalized. by rewrite Hp.
Qed.

Lemma ParseCoinsNormalized_order_witness :
  ParseCoinsNormalized regAtom "1atom,2uatom"
  = Done (Ok (Some [mkCoin "uatom" 1000000; mkCoin "uatom" 2]))
  /\ ParseCoinsNormalized regAtom "2uatom,1atom"
     = Done (Ok (Some [mkCoin "uatom" 1000000; mkCoin "uatom" 2]))
  /\ ParseCoinsNormalized regAtom "0atom,1atom"
     = Done (Ok (Some [mkCoin "uatom" 1000000]))
  /\ ParseCoinsNormalized regZeroBase "1atom" = Panic DivisionByZero
  /\ ParseCoinsNormalized regAtom "1atom,2atom" = Done (Err ParseError).
Proof.
  split; [|split; [|split; [|split]]].
  - destruct (ParseCoinsNormalized_order regAtom "1atom,2uatom") as [H _].
    destruct (H [mkDecCoin "atom" one; mkDecCoin "uatom" (2 * one)])
      as (_ & _ & Hout & _); [by vm_compute|].
    apply Hout. repeat constructor.
  - destruct (ParseCoinsNormalized_order regAtom "2uatom,1atom") as [H _].
    destruct (H [mkDecCoin "atom" one; mkDecCoin "uatom" (2 * one)])
      as (_ & _ & Hout & _); [by vm_compute|].
    apply Hout. repeat constructor.
  - destruct (ParseCoinsNormalized_order regAtom "0atom,1atom") as [H _].
    destruct (H [mkDecCoin "atom" one]) as (_ & _ & Hout & _); [by vm_compute|].
    apply Hout. repeat constructor.
  - destruct (ParseCoinsNormalized_order regZeroBase "1atom") as [H _].
    destruct (H [mkDecCoin "atom" one]) as (_ & _ & _ & _ & Hpanic & _);
      [by vm_compute|].
    apply Hpanic. exists [], (mkDecCoin "atom" one), [].
    split; [reflexivity|]. split; [constructor | by vm_compute].
  - destruct (ParseCoinsNormalized_order regAtom "1atom,2atom") as [_ H].
    apply (H [mkDecCoin "atom" one; mkDecCoin "atom" (2 * one)]).
    + repeat constructor.
    + intros Hnd. vm_compute in Hnd. inversion Hnd as [|? ? Hnotin _]; subst.
      apply Hnotin. by left.
Defined.

End Normalisation.

(** * Further properties of the registry *)

Section RegistryMore.

Implicit Types (reg : Registry) (denom bDenom d : string) (unit bUnit : Z).

Lemma registerAll_snoc (calls : list RegisterCall) (c : RegisterCall) :
  registerAll (calls ++ [c]) = registerCall (registerAll calls) c.
Proof. unfold registerAll. by rewrite fold_left_app. Qed.

Lemma linksClosed_registerAll (calls : list RegisterCall) :
  linksClosed (registerAll calls).
Proof. apply linksClosed_fold, linksClosed_empty. Qed.

Lemma sameNames_RegisterDenom reg denom unit bDenom bUnit :
  sameNames reg -> sameNames (snd (RegisterDenom reg denom unit bDenom bUnit)).
Proof.
  intros Hinv. destruct (validDenom denom) eqn:Hv;
    [|by rewrite RegisterDenom_invalid].
  destruct (denomUnits reg !! denom) as [u|] eqn:Hu;
    [by rewrite (RegisterDenom_taken _ _ u)|].
  rewrite RegisterDenom_fresh by done. intros k. simpl.
  destruct (decide (k = bDenom)) as [->|Hk1].
  { rewrite !lookup_insert_eq. split; eauto. }
  rewrite !(lookup_insert_ne _ bDenom) by done.
  destruct (decide (k = denom)) as [->|Hk2].
  { rewrite !lookup_insert_eq. split; eauto. }
  rewrite !lookup_insert_ne by done. apply Hinv.
Qed.

Lemma sameNames_registerAll (calls : list RegisterCall) :
  sameNames (registerAll calls).
Proof.
  unfold registerAll.
  assert (H : sameNames emptyRegistry).
  { intros k. simpl. rewrite !lookup_empty. split; intros [? ?]; done. }
  revert H. generalize emptyRegistry.
  induction calls as [|c calls IH]; intros reg Hinv; simpl; [done|].
  apply IH. by apply sameNames_RegisterDenom.
Qed.

(** X1: after a successful [RegisterDenom(denom, unit, bDenom, bUnit)] the two
    getters read the call back: [GetDenomUnit(denom)] is [unit] unless the two
    names coincide, [GetDenomUnit(bDenom)] is [bUnit] when [bDenom] is of the
    grammar and reports it unregistered when it is not, and [GetBaseDenom]
    returns [bDenom] for both names unless [bDenom] is the empty name, for
    which it fails. *)
Theorem RegisterDenom_read_back reg denom unit bDenom bUnit :
  validDenom denom = true -> denomUnits reg !! denom = None ->
  let reg' := snd (RegisterDenom reg denom unit bDenom bUnit) in
  (denom <> bDenom -> GetDenomUnit reg' denom = (unit, true))
  /\ GetDenomUnit reg' bDenom
     = (if validDenom bDenom then (bUnit, true) else (ZeroDec, false))
  /\ (bDenom <> EmptyString ->
      GetBaseDenom reg' denom = Ok bDenom /\ GetBaseDenom reg' bDenom = Ok bDenom)
  /\ (bDenom = EmptyString -> GetBaseDenom reg' denom = Err NotRegistered).
Proof.
  intros Hv Hu. rewrite RegisterDenom_fresh by done. cbv zeta.
  split; [|split; [|split]].
  - intros Hne. apply GetDenomUnit_Some; [done|]. simpl.
    rewrite lookup_insert_ne by done. by rewrite lookup_insert_eq.
  - unfold GetDenomUnit, ValidateDenom. simpl.
    destruct (validDenom bDenom); [|done]. by rewrite lookup_insert_eq.
  - intros Hne. unfold GetBaseDenom, baseDenomAt. simpl.
    rewrite lookup_insert_eq. simpl.
    assert (Hd : (<[bDenom:=bDenom]> (<[denom:=bDenom]> (baseDenom reg))) !! denom
                 = Some bDenom).
    { destruct (decide (bDenom = denom)) as [->|Hx].
      - by rewrite lookup_insert_eq.
      - rewrite lookup_insert_ne by done. by rewrite lookup_insert_eq. }
    rewrite Hd. simpl.
    destruct (String.eqb bDenom EmptyString) eqn:Heq;
      [by apply eqb_empty in Heq|done].
  - intros ->. unfold GetBaseDenom, baseDenomAt. simpl.
    assert (denom <> EmptyString) by (intros ->; discriminate).
    rewrite lookup_insert_ne by done. by rewrite lookup_insert_eq.
Qed.

Lemma RegisterDenom_read_back_witness :
  GetDenomUnit regAtom "atom" = (one, true)
  /\ GetDenomUnit regAtom "uatom" = (1000000000000, true)
  /\ GetBaseDenom regAtom "atom" = Ok "uatom"
  /\ GetBaseDenom regAtom "uatom" = Ok "uatom"
  /\ GetDenomUnit regShortBase "ab" = (ZeroDec, false)
  /\ GetBaseDenom regEmptyBase "atom" = Err NotRegistered.
Proof.
  destruct (RegisterDenom_read_back emptyRegistry "atom" one "uatom" 1000000000000)
    as (H1 & H2 & H3 & _); [reflexivity | by vm_compute |].
  destruct H3 as [H3 H4]; [discriminate|].
  destruct (RegisterDenom_read_back emptyRegistry "atom" one "ab" one)
    as (_ & H5 & _); [reflexivity | by vm_compute |].
  destruct (RegisterDenom_read_back emptyRegistry "atom" one EmptyString one)
    as (_ & _ & _ & H6); [reflexivity | by vm_compute |].
  split; [apply H1; discriminate|]. split; [exact H2|]. split; [exact H3|].
  split; [exact H4|]. split; [exact H5|]. by apply H6.
Defined.

(** X2: a name that [GetDenomUnit] finds stays found after any further
    [RegisterDenom] call, and its multiplier is the one it had unless the call
    succeeds with that name as its base, which sets it to the call's
    [bUnit]. *)
Theorem GetDenomUnit_stays_registered reg d u denom unit bDenom bUnit :
  GetDenomUnit reg d = (u, true) ->
  let reg' := snd (RegisterDenom reg denom unit bDenom bUnit) in
  GetDenomUnit reg' d = (u, true)
  \/ (d = bDenom
      /\ fst (RegisterDenom reg denom unit bDenom bUnit) = None
      /\ GetDenomUnit reg' d = (bUnit, true)).
Proof.
  intros Hd. cbv zeta.
  assert (Hvd : validDenom d = true /\ denomUnits reg !! d = Some u).
  { unfold GetDenomUnit, ValidateDenom in Hd.
    destruct (validDenom d); [|discriminate].
    destruct (denomUnits reg !! d); [|discriminate]. by injection Hd as ->. }
  destruct Hvd as [Hvd Hud].
  destruct (validDenom denom) eqn:Hv;
    [|rewrite RegisterDenom_invalid by done; by left].
  destruct (denomUnits reg !! denom) as [u'|] eqn:Hu;
    [rewrite (RegisterDenom_taken _ _ u') by done; by left|].
  rewrite RegisterDenom_fresh by done. simpl.
  assert (d <> denom) by (intros ->; congruence).
  destruct (decide (d = bDenom)) as [->|Hne].
  - right. split; [done|]. split; [done|].
    apply GetDenomUnit_Some; [done|]. simpl. by rewrite lookup_insert_eq.
  - left. apply GetDenomUnit_Some; [done|]. simpl.
    by rewrite !lookup_insert_ne by done.
Qed.

Lemma GetDenomUnit_stays_registered_witness :
  (GetDenomUnit (snd (RegisterDenom regAtom "matom" 5 "natom" 7)) "atom" = (one, true)
   \/ ("atom" = "natom"
       /\ fst (RegisterDenom regAtom "matom" 5 "natom" 7) = None
       /\ GetDenomUnit (snd (RegisterDenom regAtom "matom" 5 "natom" 7)) "atom"
          = (7, true)))
  /\ (GetDenomUnit (snd (RegisterDenom regAtom "matom" 5 "atom" 7)) "atom" = (one, true)
      \/ ("atom" = "atom"
          /\ fst (RegisterDenom regAtom "matom" 5 "atom" 7) = None
          /\ GetDenomUnit (snd (RegisterDenom regAtom "matom" 5 "atom" 7)) "atom"
             = (7, true))).
Proof.
  split.
  - apply (GetDenomUnit_stays_registered regAtom "atom" one "matom" 5 "natom" 7).
    by vm_compute.
  - apply (GetDenomUnit_stays_registered regAtom "atom" one "matom" 5 "atom" 7).
    by vm_compute.
Defined.

Lemma selfLinkedOutside_registerAll (calls : list RegisterCall) :
  selfLinkedOutside (registerAll calls).
Proof.
  unfold registerAll.
  assert (H : selfLinkedOutside emptyRegistry).
  { intros d b Hd. simpl in Hd. by rewrite lookup_empty in Hd. }
  revert H. generalize emptyRegistry.
  induction calls as [|c calls IH]; intros reg Hinv; simpl; [done|].
  apply IH. clear IH. destruct c as [denom unit bDenom bUnit]. simpl.
  destruct (validDenom denom) eqn:Hv;
    [|by rewrite RegisterDenom_invalid].
  destruct (denomUnits reg !! denom) as [u|] eqn:Hu;
    [by rewrite (RegisterDenom_taken _ _ u)|].
  rewrite RegisterDenom_fresh by done. intros d b. simpl.
  destruct (decide (d = bDenom)) as [->|Hd1].
  { rewrite lookup_insert_eq. intros [= <-]. by right. }
  rewrite lookup_insert_ne by done.
  destruct (decide (d = denom)) as [->|Hd2]; [by left|].
  rewrite lookup_insert_ne by done. apply Hinv.
Qed.

(** X3: from the empty registry, after any sequence of [RegisterDenom] calls,
    the two maps hold the same names: a name has a multiplier exactly when it
    has a base-link. *)
Theorem denomUnits_baseDenom_same_names (calls : list RegisterCall) (k : string) :
  is_Some (denomUnits (registerAll calls) !! k)
  <-> is_Some (baseDenom (registerAll calls) !! k).
Proof. apply sameNames_registerAll. Qed.

Lemma GetBaseDenom_Ok reg d b :
  GetBaseDenom reg d = Ok b <-> baseDenom reg !! d = Some b /\ b <> EmptyString.
Proof.
  unfold GetBaseDenom, baseDenomAt.
  destruct (baseDenom reg !! d) as [x|]; simpl.
  - destruct (String.eqb x EmptyString) eqn:Heq.
    + apply eqb_empty in Heq as ->. split; [done|]. by intros [[= <-] ?].
    + split.
      * intros [= <-]. split; [done|]. intros ->. discriminate.
      * by intros [[= <-] _].
  - split; [done|]. by intros [? _].
Qed.

(** X4: from the empty registry, after any sequence of [RegisterDenom] calls,
    a base that [GetBaseDenom] returns is its own base and has a multiplier
    recorded. *)
Theorem GetBaseDenom_fixpoint (calls : list RegisterCall) (d b : string) :
  GetBaseDenom (registerAll calls) d = Ok b ->
  GetBaseDenom (registerAll calls) b = Ok b
  /\ is_Some (denomUnits (registerAll calls) !! b).
Proof.
  intros [Hd Hne]%GetBaseDenom_Ok.
  destruct (linksClosed_registerAll calls d b Hd) as [Hb Hu].
  split; [by apply GetBaseDenom_Ok | done].
Qed.

Lemma GetBaseDenom_fixpoint_witness :
  let calls := [mkCall "atom" one "uatom" 1000000000000;
                mkCall "matom" 1000000000000000 "atom" one] in
  GetBaseDenom (registerAll calls) "atom" = Ok "atom"
  /\ is_Some (denomUnits (registerAll calls) !! "atom").
Proof.
  cbv zeta.
  apply (GetBaseDenom_fixpoint
           [mkCall "atom" one "uatom" 1000000000000;
            mkCall "matom" 1000000000000000 "atom" one] "matom" "atom").
  by vm_compute.
Defined.

(** X5: from the empty registry, after any sequence of calls, a base that
    [GetBaseDenom] returns for a name survives one more [RegisterDenom] call,
    unless that call succeeds with the name itself as its base: the name then
    becomes its own base. *)
Theorem GetBaseDenom_stays (calls : list RegisterCall) (c : RegisterCall)
    (d b : string) :
  GetBaseDenom (registerAll calls) d = Ok b ->
  GetBaseDenom (registerAll (calls ++ [c])) d = Ok b
  \/ (d = callBase c /\ GetBaseDenom (registerAll (calls ++ [c])) d = Ok d).
Proof.
  intros Hd. rewrite registerAll_snoc. unfold registerCall.
  set (reg := registerAll calls) in *.
  destruct c as [denom unit bDenom bUnit]. simpl.
  apply GetBaseDenom_Ok in Hd as Hd'. destruct Hd' as [Hb Hne].
  assert (Hu : is_Some (denomUnits reg !! d)).
  { apply sameNames_registerAll. eauto. }
  destruct (validDenom denom) eqn:Hv;
    [|rewrite RegisterDenom_invalid by done; by left].
  destruct (denomUnits reg !! denom) as [u'|] eqn:Hu';
    [rewrite (RegisterDenom_taken _ _ u') by done; by left|].
  rewrite RegisterDenom_fresh by done.
  assert (d <> denom) by (intros ->; rewrite Hu' in Hu; by destruct Hu).
  destruct (decide (d = bDenom)) as [->|Hx].
  - right. split; [done|]. apply GetBaseDenom_Ok. simpl.
    rewrite lookup_insert_eq. split; [done|].
    intros ->. destruct (selfLinkedOutside_registerAll calls _ _ Hb); done.
  - left. apply GetBaseDenom_Ok. simpl. by rewrite !lookup_insert_ne by done.
Qed.

Lemma GetBaseDenom_stays_witness :
  let calls := [mkCall "atom" one "uatom" 1000000000000] in
  (GetBaseDenom (registerAll (calls ++ [mkCall "matom" 5 "uatom" 7])) "atom"
     = Ok "uatom"
   \/ ("atom" = "uatom"
       /\ GetBaseDenom (registerAll (calls ++ [mkCall "matom" 5 "uatom" 7])) "atom"
          = Ok "atom"))
  /\ (GetBaseDenom (registerAll (calls ++ [mkCall "matom" 5 "atom" 7])) "atom"
        = Ok "uatom"
      \/ ("atom" = "atom"
          /\ GetBaseDenom (registerAll (calls ++ [mkCall "matom" 5 "atom" 7])) "atom"
             = Ok "atom")).
Proof.
  cbv zeta. split.
  - apply (GetBaseDenom_stays [mkCall "atom" one "uatom" 1000000000000]
             (mkCall "matom" 5 "uatom" 7) "atom" "uatom").
    by vm_compute.
  - apply (GetBaseDenom_stays [mkCall "atom" one "uatom" 1000000000000]
             (mkCall "matom" 5 "atom" 7) "atom" "uatom").
    by vm_compute.
Defined.

End RegistryMore.

(** * Order of registrations *)

Section Commutation.

Implicit Types (reg : Registry) (c : RegisterCall).

Lemma registerCall_lookups reg c (k : string) :
  k <> callDenom c -> k <> callBase c ->
  denomUnits (registerCall reg c) !! k = denomUnits reg !! k
  /\ baseDenom (registerCall reg c) !! k = baseDenom reg !! k.
Proof.
  intros H1 H2. unfold registerCall. destruct c as [denom unit bDenom bUnit].
  simpl in *.
  destruct (validDenom denom) eqn:Hv;
    [|by rewrite RegisterDenom_invalid].
  destruct (denomUnits reg !! denom) as [u|] eqn:Hu;
    [by rewrite (RegisterDenom_taken _ _ u)|].
  rewrite RegisterDenom_fresh by done. simpl.
  by rewrite !lookup_insert_ne by done.
Qed.

Lemma RegisterDenom_eq reg (denom : string) (unit : Z) (bDenom : string) (bUnit : Z) :
  RegisterDenom reg denom unit bDenom bUnit
  = if validDenom denom then
      if decide (denomUnits reg !! denom = None) then
        (None, mkRegistry (<[bDenom := bUnit]> (<[denom := unit]> (denomUnits reg)))
                          (<[bDenom := bDenom]> (<[denom := bDenom]> (baseDenom reg))))
      else (Some (AlreadyRegistered denom), reg)
    else (Some (InvalidDenom denom), reg).
Proof.
  unfold RegisterDenom, ValidateDenom. destruct (validDenom denom); [|done].
  destruct (denomUnits reg !! denom) eqn:Hu.
  - by rewrite decide_False.
  - by rewrite decide_True.
Qed.

(** X6: two [RegisterDenom] calls that share no name commute: made in
    either order they return the same errors and leave the same registry. *)
Theorem RegisterDenom_commute reg c1 c2 :
  callDenom c1 <> callDenom c2 -> callDenom c1 <> callBase c2 ->
  callBase c1 <> callDenom c2 -> callBase c1 <> callBase c2 ->
  registerCall (registerCall reg c1) c2 = registerCall (registerCall reg c2) c1
  /\ fst (RegisterDenom reg (callDenom c1) (callUnit c1) (callBase c1) (callBaseUnit c1))
     = fst (RegisterDenom (registerCall reg c2)
              (callDenom c1) (callUnit c1) (callBase c1) (callBaseUnit c1))
  /\ fst (RegisterDenom reg (callDenom c2) (callUnit c2) (callBase c2) (callBaseUnit c2))
     = fst (RegisterDenom (registerCall reg c1)
              (callDenom c2) (callUnit c2) (callBase c2) (callBaseUnit c2)).
Proof.
  intros H1 H2 H3 H4. unfold registerCall.
  destruct c1 as [d1 u1 b1 bu1], c2 as [d2 u2 b2 bu2]. simpl in *.
  rewrite !RegisterDenom_eq.
  destruct (validDenom d1), (validDenom d2); simpl;
    repeat (first [rewrite !lookup_insert_ne by done | case_decide]; simpl);
    try done.
  all: simpl in *; rewrite ?lookup_insert_ne in * by done; try congruence.
  split; [|done].
  f_equal; apply map_eq; intros k; rewrite !lookup_insert;
    repeat case_decide; subst; done.
Qed.

Lemma RegisterDenom_commute_witness :
  registerCall (registerCall regAtom (mkCall "btc" one "sat" 10000000000))
    (mkCall "atom" 5 "natom" 1)
  = registerCall (registerCall regAtom (mkCall "atom" 5 "natom" 1))
      (mkCall "btc" one "sat" 10000000000).
Proof.
  apply (RegisterDenom_commute regAtom (mkCall "btc" one "sat" 10000000000)
           (mkCall "atom" 5 "natom" 1)); discriminate.
Defined.

End Commutation.

(** * Further properties of the conversions *)

Section ConversionMore.

Local Abbreviation P := precisionReuse.

Implicit Types (reg : Registry) (coin : Coin) (dcoin : DecCoin) (denom : string).

Lemma GetDenomUnit_true reg denom u :
  GetDenomUnit reg denom = (u, true) <->
  validDenom denom = true /\ denomUnits reg !! denom = Some u.
Proof.
  unfold GetDenomUnit, ValidateDenom. destruct (validDenom denom).
  - destruct (denomUnits reg !! denom) as [x|].
    + split; [by intros [= ->] | by intros [_ [= ->]]].
    + split; [done | by intros [_ ?]].
  - split; [done | by intros [? _]].
Qed.

Lemma checkDec_Done (x y : Z) : checkDec x = Done y -> y = x.
Proof. unfold checkDec. case_match; congruence. Qed.

Lemma Mul_NewDecFromInt_Done (a u m : Z) :
  Mul (NewDecFromInt a) u = Done m -> m = a * u.
Proof.
  unfold Mul, NewDecFromInt.
  replace (a * P * u) with (a * u * P) by lia.
  rewrite chop_multiple. apply checkDec_Done.
Qed.

Lemma Quo_Done (m du q : Z) :
  Quo m du = Done q -> du <> 0 /\ q = quoRounded m du.
Proof.
  unfold Quo. destruct (Z.eqb_spec du 0); [done|].
  intros H%checkDec_Done. done.
Qed.

Lemma TruncateInt_Done (q t : Z) : TruncateInt q = Done t -> t = Z.quot q P.
Proof. unfold TruncateInt, NewIntFromBigInt. case_match; congruence. Qed.

Lemma NewCoin_Done_valid (denom : string) (amount : Z) (c : Coin) :
  NewCoin denom amount = Done c ->
  c = mkCoin denom amount /\ validDenom denom = true /\ 0 <= amount.
Proof.
  unfold NewCoin. destruct (validDenom denom); simpl; [|done].
  destruct (Z.leb_spec 0 amount); [|done]. by intros [= <-].
Qed.

Lemma NewDecCoinFromDec_Done_valid (denom : string) (amount : Z) (c : DecCoin) :
  NewDecCoinFromDec denom amount = Done c ->
  c = mkDecCoin denom amount /\ validDenom denom = true /\ 0 <= amount.
Proof.
  unfold NewDecCoinFromDec. destruct (validDenom denom); simpl; [|done].
  destruct (Z.leb_spec 0 amount); [|done]. by intros [= <-].
Qed.

(** What a coin returned by [ConvertCoin] tells about the call. *)
Lemma ConvertCoin_Ok_inv reg coin denom (c : Coin) :
  ConvertCoin reg coin denom = Done (Ok c) ->
  exists su du,
    GetDenomUnit reg (Denom coin) = (su, true)
    /\ GetDenomUnit reg denom = (du, true)
    /\ validDenom denom = true
    /\ 0 <= Amount c
    /\ ((su = du /\ c = mkCoin denom (Amount coin))
        \/ (su <> du /\ du <> 0
            /\ c = mkCoin denom (quoTruncated (Amount coin * su) du))).
Proof.
  unfold ConvertCoin, ValidateDenom.
  destruct (validDenom denom) eqn:Hv; [|done].
  destruct (GetDenomUnit reg (Denom coin)) as [su [|]] eqn:Hs; [|done].
  destruct (GetDenomUnit reg denom) as [du [|]] eqn:Hd; [|done].
  unfold DecEqual. destruct (Z.eqb_spec su du) as [->|Hne]; intros Hrun.
  - apply bind_Done_inv in Hrun as (c' & Hc & [= <-]).
    apply NewCoin_Done_valid in Hc as (-> & _ & Ha).
    exists du, du. repeat split; try done. by left.
  - apply bind_Done_inv in Hrun as (m & Hm & Hrun).
    apply bind_Done_inv in Hrun as (q & Hq & Hrun).
    apply bind_Done_inv in Hrun as (t & Ht & Hrun).
    apply bind_Done_inv in Hrun as (c' & Hc & [= <-]).
    apply Mul_NewDecFromInt_Done in Hm as ->.
    apply Quo_Done in Hq as [Hdu ->].
    apply TruncateInt_Done in Ht as ->.
    apply NewCoin_Done_valid in Hc as (-> & _ & Ha).
    exists su, du. repeat split; try done. right. by repeat split.
Qed.

(** What a decimal coin returned by [ConvertDecCoin] tells about the call. *)
Lemma ConvertDecCoin_Ok_inv reg dcoin denom (c : DecCoin) :
  ConvertDecCoin reg dcoin denom = Done (Ok c) ->
  exists su du,
    GetDenomUnit reg (DDenom dcoin) = (su, true)
    /\ GetDenomUnit reg denom = (du, true)
    /\ validDenom denom = true
    /\ 0 <= DAmount c
    /\ ((su = du /\ c = mkDecCoin denom (DAmount dcoin))
        \/ (su <> du /\ du <> 0
            /\ c = mkDecCoin denom
                     (quoRounded (chopPrecisionAndRound (DAmount dcoin * su)) du))).
Proof.
  unfold ConvertDecCoin, ValidateDenom.
  destruct (validDenom denom) eqn:Hv; [|done].
  destruct (GetDenomUnit reg (DDenom dcoin)) as [su [|]] eqn:Hs; [|done].
  destruct (GetDenomUnit reg denom) as [du [|]] eqn:Hd; [|done].
  unfold DecEqual. destruct (Z.eqb_spec su du) as [->|Hne]; intros Hrun.
  - apply bind_Done_inv in Hrun as (c' & Hc & [= <-]).
    apply NewDecCoinFromDec_Done_valid in Hc as (-> & _ & Ha).
    exists du, du. repeat split; try done. by left.
  - apply bind_Done_inv in Hrun as (m & Hm & Hrun).
    apply bind_Done_inv in Hrun as (q & Hq & Hrun).
    apply bind_Done_inv in Hrun as (c' & Hc & [= <-]).
    apply checkDec_Done in Hm as ->.
    apply Quo_Done in Hq as [Hdu ->].
    apply NewDecCoinFromDec_Done_valid in Hc as (-> & _ & Ha).
    exists su, du. repeat split; try done. right. by repeat split.
Qed.

(** An error value of a conversion comes from one of its three checks. *)
Lemma Convert_errors reg coin dcoin denom :
  (forall e, ConvertCoin reg coin denom = Done (Err e) ->
     validDenom denom = false
     \/ snd (GetDenomUnit reg (Denom coin)) = false
     \/ snd (GetDenomUnit reg denom) = false)
  /\ (forall e, ConvertDecCoin reg dcoin denom = Done (Err e) ->
        validDenom denom = false
        \/ snd (GetDenomUnit reg (DDenom dcoin)) = false
        \/ snd (GetDenomUnit reg denom) = false).
Proof.
  split; intros e.
  - unfold ConvertCoin, ValidateDenom.
    destruct (validDenom denom) eqn:Hv; [|by left].
    destruct (GetDenomUnit reg (Denom coin)) as [su [|]] eqn:Hs; [|by right; left].
    destruct (GetDenomUnit reg denom) as [du [|]] eqn:Hd; [|by right; right].
    unfold DecEqual. destruct (Z.eqb su du); intros Hrun; exfalso.
    + apply bind_Done_inv in Hrun as (? & _ & ?). done.
    + apply bind_Done_inv in Hrun as (? & _ & Hrun).
      apply bind_Done_inv in Hrun as (? & _ & Hrun).
      apply bind_Done_inv in Hrun as (? & _ & Hrun).
      apply bind_Done_inv in Hrun as (? & _ & ?). done.
  - unfold ConvertDecCoin, ValidateDenom.
    destruct (validDenom denom) eqn:Hv; [|by left].
    destruct (GetDenomUnit reg (DDenom dcoin)) as [su [|]] eqn:Hs; [|by right; left].
    destruct (GetDenomUnit reg denom) as [du [|]] eqn:Hd; [|by right; right].
    unfold DecEqual. destruct (Z.eqb su du); intros Hrun; exfalso.
    + apply bind_Done_inv in Hrun as (? & _ & ?). done.
    + apply bind_Done_inv in Hrun as (? & _ & Hrun).
      apply bind_Done_inv in Hrun as (? & _ & Hrun).
      apply bind_Done_inv in Hrun as (? & _ & ?). done.
Qed.

(** X7: from the empty registry, after any sequence of [RegisterDenom]
    calls, when [GetBaseDenom] returns a base for a coin's denomination and
    both names are of the grammar, [GetDenomUnit] finds both, so the
    conversion to the base that [NormalizeCoin] and [NormalizeDecCoin] make
    returns no error value. *)
Theorem conversion_to_base_finds_both (calls : list RegisterCall) coin dcoin
    (base : string) :
  DDenom dcoin = Denom coin ->
  GetBaseDenom (registerAll calls) (Denom coin) = Ok base ->
  validDenom (Denom coin) = true -> validDenom base = true ->
  snd (GetDenomUnit (registerAll calls) (Denom coin)) = true
  /\ snd (GetDenomUnit (registerAll calls) base) = true
  /\ (forall e, ConvertCoin (registerAll calls) coin base <> Done (Err e))
  /\ (forall e, ConvertDecCoin (registerAll calls) dcoin base <> Done (Err e)).
Proof.
  intros Hdd [Hb Hne]%GetBaseDenom_Ok Hv Hvb.
  set (reg := registerAll calls) in *.
  destruct (linksClosed_registerAll calls _ _ Hb) as [_ [ub Hub]].
  assert (Hs : is_Some (denomUnits reg !! Denom coin))
    by (apply sameNames_registerAll; eauto).
  destruct Hs as [us Hus].
  assert (H1 : GetDenomUnit reg (Denom coin) = (us, true))
    by (by apply GetDenomUnit_Some).
  assert (H2 : GetDenomUnit reg base = (ub, true)) by (by apply GetDenomUnit_Some).
  split; [by rewrite H1|]. split; [by rewrite H2|]. split.
  - intros e He.
    destruct (Convert_errors reg coin dcoin base) as [Hc _].
    destruct (Hc e He) as [?|[Hx|Hx]]; [congruence| |].
    + rewrite H1 in Hx. done.
    + rewrite H2 in Hx. done.
  - intros e He.
    destruct (Convert_errors reg coin dcoin base) as [_ Hc].
    destruct (Hc e He) as [?|[Hx|Hx]]; [congruence| |].
    + rewrite Hdd, H1 in Hx. done.
    + rewrite H2 in Hx. done.
Qed.

Lemma conversion_to_base_finds_both_witness :
  let calls := [mkCall "atom" one "uatom" 1000000000000;
                mkCall "matom" 1000000000000000 "atom" one] in
  snd (GetDenomUnit (registerAll calls) "matom") = true
  /\ snd (GetDenomUnit (registerAll calls) "atom") = true
  /\ (forall e, ConvertCoin (registerAll calls) (mkCoin "matom" 3) "atom"
                <> Done (Err e))
  /\ (forall e, ConvertDecCoin (registerAll calls) (mkDecCoin "matom" 3) "atom"
                <> Done (Err e)).
Proof.
  cbv zeta.
  apply (conversion_to_base_finds_both
           [mkCall "atom" one "uatom" 1000000000000;
            mkCall "matom" 1000000000000000 "atom" one]
           (mkCoin "matom" 3) (mkDecCoin "matom" 3) "atom");
    by vm_compute.
Defined.

(** X8: from the empty registry, after any sequence of [RegisterDenom]
    calls, normalising is idempotent: the coin [NormalizeCoin] returns is
    returned as it is when normalised again, and so for [NormalizeDecCoin]. *)
Theorem Normalize_idempotent (calls : list RegisterCall) coin dcoin :
  (forall c, NormalizeCoin (registerAll calls) coin = Done c ->
             NormalizeCoin (registerAll calls) c = Done c)
  /\ (forall c, NormalizeDecCoin (registerAll calls) dcoin = Done c ->
                NormalizeDecCoin (registerAll calls) c = Done c).
Proof.
  set (reg := registerAll calls).
  split; intros c.
  - unfold NormalizeCoin at 1.
    destruct (GetBaseDenom reg (Denom coin)) as [base|e] eqn:Hb;
      [|intros [= <-]; unfold NormalizeCoin; by rewrite Hb].
    destruct (ConvertCoin reg coin base) as [[c'|e]|p] eqn:Hc; simpl; [| |done].
    + intros [= <-].
      apply ConvertCoin_Ok_inv in Hc
        as (su & du & _ & Hd & Hv & Ha & Hcase).
      assert (Hden : Denom c' = base) by (by destruct Hcase as [[_ ->]|(_ & _ & ->)]).
      assert (Hbb : GetBaseDenom reg base = Ok base).
      { apply GetBaseDenom_Ok in Hb as [Hb' Hnb]. apply GetBaseDenom_Ok.
        split; [|done]. by destruct (linksClosed_registerAll calls _ _ Hb'). }
      unfold NormalizeCoin. rewrite Hden, Hbb.
      unfold ConvertCoin, ValidateDenom. rewrite Hv, Hden, Hd.
      unfold DecEqual. rewrite Z.eqb_refl. unfold NewCoin. rewrite Hv.
      destruct (Z.leb_spec 0 (Amount c')); [|lia]. simpl.
      destruct c'; simpl in *; by subst.
    + intros [= <-]. unfold NormalizeCoin. by rewrite Hb, Hc.
  - unfold NormalizeDecCoin at 1.
    destruct (GetBaseDenom reg (DDenom dcoin)) as [base|e] eqn:Hb;
      [|intros [= <-]; unfold NormalizeDecCoin; by rewrite Hb].
    destruct (ConvertDecCoin reg dcoin base) as [[c'|e]|p] eqn:Hc; simpl; [| |done].
    + intros [= <-].
      apply ConvertDecCoin_Ok_inv in Hc
        as (su & du & _ & Hd & Hv & Ha & Hcase).
      assert (Hden : DDenom c' = base) by (by destruct Hcase as [[_ ->]|(_ & _ & ->)]).
      assert (Hbb : GetBaseDenom reg base = Ok base).
      { apply GetBaseDenom_Ok in Hb as [Hb' Hnb]. apply GetBaseDenom_Ok.
        split; [|done]. by destruct (linksClosed_registerAll calls _ _ Hb'). }
      unfold NormalizeDecCoin. rewrite Hden, Hbb.
      unfold ConvertDecCoin, ValidateDenom. rewrite Hv, Hden, Hd.
      unfold DecEqual. rewrite Z.eqb_refl. unfold NewDecCoinFromDec. rewrite Hv.
      destruct (Z.leb_spec 0 (DAmount c')); [|lia]. simpl.
      destruct c'; simpl in *; by subst.
    + intros [= <-]. unfold NormalizeDecCoin. by rewrite Hb, Hc.
Qed.

Lemma Normalize_idempotent_witness :
  NormalizeCoin regAtom (mkCoin "uatom" 3000000) = Done (mkCoin "uatom" 3000000)
  /\ NormalizeDecCoin regAtom (mkDecCoin "uatom" 1500000000000000000000000)
     = Done (mkDecCoin "uatom" 1500000000000000000000000).
Proof.
  destruct (Normalize_idempotent [mkCall "atom" one "uatom" 1000000000000]
              (mkCoin "atom" 3) (mkDecCoin "atom" 1500000000000000000))
    as [H1 H2].
  split.
  - apply (H1 (mkCoin "uatom" 3000000)). by vm_compute.
  - apply (H2 (mkDecCoin "uatom" 1500000000000000000000000)). by vm_compute.
Defined.

(** X9: whatever the registry, when the base that [GetBaseDenom] returns for
    a coin's denomination is a name outside the grammar, [NormalizeCoin] and
    [NormalizeDecCoin] return the coin unchanged: [ConvertCoin] refuses the
    target before it looks at any multiplier. *)
Theorem Normalize_invalid_base reg coin dcoin (base : string) :
  validDenom base = false ->
  (GetBaseDenom reg (Denom coin) = Ok base -> NormalizeCoin reg coin = Done coin)
  /\ (GetBaseDenom reg (DDenom dcoin) = Ok base ->
      NormalizeDecCoin reg dcoin = Done dcoin).
Proof.
  intros Hv. split; intros Hb.
  - unfold NormalizeCoin. rewrite Hb.
    unfold ConvertCoin, ValidateDenom. by rewrite Hv.
  - unfold NormalizeDecCoin. rewrite Hb.
    unfold ConvertDecCoin, ValidateDenom. by rewrite Hv.
Qed.

Lemma Normalize_invalid_base_witness :
  NormalizeCoin regShortBase (mkCoin "atom" 3) = Done (mkCoin "atom" 3)
  /\ NormalizeDecCoin regShortBase (mkDecCoin "atom" 3) = Done (mkDecCoin "atom" 3).
Proof.
  destruct (Normalize_invalid_base regShortBase (mkCoin "atom" 3)
              (mkDecCoin "atom" 3) "ab") as [H1 H2]; [reflexivity|].
  split; [apply H1 | apply H2]; by vm_compute.
Defined.

(** X10: [ConvertCoin] is [ConvertDecCoin] followed by the truncation: when
    both return, for a coin and for the same amount as a decimal coin, the
    integer amount is the decimal amount with its 18 decimals dropped, under
    the same name. *)
Theorem ConvertCoin_truncates_ConvertDecCoin reg coin denom (c : Coin) (d : DecCoin) :
  ConvertCoin reg coin denom = Done (Ok c) ->
  ConvertDecCoin reg (mkDecCoin (Denom coin) (NewDecFromInt (Amount coin))) denom
    = Done (Ok d) ->
  Denom c = DDenom d /\ Amount c = Z.quot (DAmount d) P.
Proof.
  intros Hc Hd. pose proof P_pos.
  apply ConvertCoin_Ok_inv in Hc as (su & du & Hs & Hdst & _ & _ & Hcase).
  apply ConvertDecCoin_Ok_inv in Hd as (su' & du' & Hs' & Hdst' & _ & _ & Hcase').
  simpl in Hs'. rewrite Hs in Hs'. rewrite Hdst in Hdst'.
  injection Hs' as <-. injection Hdst' as <-.
  destruct Hcase as [[Heq ->]|(Hne & _ & ->)];
    destruct Hcase' as [[Heq' ->]|(Hne' & _ & ->)]; try done; simpl.
  - split; [done|]. unfold NewDecFromInt. by rewrite Z.quot_mul by lia.
  - split; [done|]. unfold quoTruncated, NewDecFromInt.
    replace (Amount coin * P * su) with (Amount coin * su * P) by lia.
    by rewrite chop_multiple.
Qed.

Lemma ConvertCoin_truncates_ConvertDecCoin_witness :
  Denom (mkCoin "atom" 1) = DDenom (mkDecCoin "atom" 1999999000000000000)
  /\ Amount (mkCoin "atom" 1) = Z.quot (DAmount (mkDecCoin "atom" 1999999000000000000)) P.
Proof.
  apply (ConvertCoin_truncates_ConvertDecCoin regAtom (mkCoin "uatom" 1999999) "atom");
    by vm_compute.
Defined.

Lemma bind_Done {A B : Type} (a : A) (f : A -> Run B) : Done a ≫= f = f a.
Proof. reflexivity. Qed.

Lemma chopNonneg_mono (x y : Z) : 0 <= x <= y -> chopNonneg x <= chopNonneg y.
Proof.
  intros Hxy. pose proof P_pos as HP. pose proof P_five as H5.
  assert (Hq : x / P <= y / P) by (apply Z.div_le_mono; lia).
  destruct (chopNonneg_range x ltac:(lia)) as [[Hx1 Hx2] _].
  destruct (chopNonneg_range y ltac:(lia)) as [[Hy1 Hy2] _].
  destruct (Z.eq_dec (x / P) (y / P)) as [Heq|Hne]; [|lia].
  assert (Hx : x = P * (x / P) + x mod P) by (apply Z.div_mod; lia).
  assert (Hy : y = P * (y / P) + y mod P) by (apply Z.div_mod; lia).
  assert (Hr : x mod P <= y mod P) by nia.
  unfold chopNonneg. rewrite !Z.quot_div_nonneg, !Z.rem_mod_nonneg by lia.
  rewrite <- Heq.
  destruct (Z.eqb_spec (x mod P) 0); destruct (Z.eqb_spec (y mod P) 0);
    destruct (Z.compare_spec (x mod P) fivePrecision);
    destruct (Z.compare_spec (y mod P) fivePrecision);
    destruct (Z.even (x / P)); lia.
Qed.

Lemma quoTruncated_mono (n1 n2 d : Z) :
  0 <= n1 <= n2 -> 0 < d -> quoTruncated n1 d <= quoTruncated n2 d.
Proof.
  intros Hn Hd. pose proof P_pos as HP. unfold quoTruncated, quoRounded.
  rewrite !(Z.quot_div_nonneg _ d) by nia.
  assert (H1 : 0 <= n1 * P * P / d) by (apply Z.div_pos; nia).
  assert (H2 : n1 * P * P / d <= n2 * P * P / d) by (apply Z.div_le_mono; nia).
  unfold chopPrecisionAndRound.
  destruct (Z.ltb_spec (n1 * P * P / d) 0); [lia|].
  destruct (Z.ltb_spec (n2 * P * P / d) 0); [lia|].
  pose proof (chopNonneg_mono _ _ (conj H1 H2)) as Hc.
  destruct (chopNonneg_range (n1 * P * P / d) H1) as [[Hlo _] _].
  assert (0 <= (n1 * P * P / d) / P) by (apply Z.div_pos; lia).
  rewrite !Z.quot_div_nonneg by lia.
  apply Z.div_le_mono; lia.
Qed.

(** X11: with a non-negative source multiplier and a positive target
    multiplier, [ConvertCoin] keeps the order of amounts: of two coins of one
    denomination, the one with the larger amount converts to an amount at
    least as large. *)
Theorem ConvertCoin_monotone reg (c1 c2 r1 r2 : Coin) denom (su du : Z) :
  Denom c1 = Denom c2 -> 0 <= Amount c1 <= Amount c2 ->
  GetDenomUnit reg (Denom c1) = (su, true) ->
  GetDenomUnit reg denom = (du, true) ->
  0 <= su -> 0 < du ->
  ConvertCoin reg c1 denom = Done (Ok r1) ->
  ConvertCoin reg c2 denom = Done (Ok r2) ->
  Amount r1 <= Amount r2.
Proof.
  intros Hden Ha Hs Hd Hsu Hdu H1 H2.
  apply ConvertCoin_Ok_inv in H1 as (su1 & du1 & Hs1 & Hd1 & _ & _ & Hc1).
  apply ConvertCoin_Ok_inv in H2 as (su2 & du2 & Hs2 & Hd2 & _ & _ & Hc2).
  rewrite <- Hden in Hs2. rewrite Hs in Hs1, Hs2. rewrite Hd in Hd1, Hd2.
  injection Hs1 as <-. injection Hs2 as <-.
  injection Hd1 as <-. injection Hd2 as <-.
  destruct Hc1 as [[Heq ->]|(Hne & _ & ->)];
    destruct Hc2 as [[Heq' ->]|(Hne' & _ & ->)]; try done; simpl; [lia|].
  apply quoTruncated_mono; [nia|done].
Qed.

Lemma ConvertCoin_monotone_witness :
  Amount (mkCoin "atom" 1) <= Amount (mkCoin "atom" 2).
Proof.
  apply (ConvertCoin_monotone regAtom (mkCoin "uatom" 1999999) (mkCoin "uatom" 2000000)
           (mkCoin "atom" 1) (mkCoin "atom" 2) "atom" 1000000000000 one);
    by vm_compute.
Defined.

(** Towards the smaller unit: the source multiplier is [k] times the target
    multiplier, and the amount is multiplied by [k]. *)
Lemma ConvertCoin_to_smaller reg (src dst : string) (a k du : Z) :
  GetDenomUnit reg src = (k * du, true) ->
  GetDenomUnit reg dst = (du, true) ->
  0 <= a -> 1 <= k -> 0 < du ->
  a * (k * du) < 2 ^ maxDecBitLen -> a * k + 1 < 2 ^ maxBitLen ->
  ConvertCoin reg (mkCoin src a) dst = Done (Ok (mkCoin dst (a * k))).
Proof.
  intros Hs Hd Ha Hk Hdu Hmul Hint. pose proof P_pos as HP.
  assert (Hvd : validDenom dst = true) by (by apply GetDenomUnit_true in Hd as [? _]).
  destruct (ConvertCoin_branches reg (mkCoin src a) dst (k * du) du)
    as [Heq1 Hne1]; try done.
  simpl in *.
  destruct (Z.eq_dec k 1) as [->|Hk1].
  { rewrite Heq1 by lia. by rewrite Z.mul_1_r. }
  assert (Hd1 : a * (k * du) / du = a * k).
  { replace (a * (k * du)) with (a * k * du) by lia. by rewrite Z.div_mul by lia. }
  assert (Hm1 : (a * (k * du)) mod du = 0).
  { replace (a * (k * du)) with (a * k * du) by lia. by rewrite Z.mod_mul by lia. }
  rewrite Hne1; [|nia|nia|done|done|lia].
  destruct (quoTruncated_range (a * (k * du)) du) as (_ & _ & Hex); [nia|done|].
  rewrite Hex, Hd1; [done|]. rewrite Hm1. nia.
Qed.

(** Back to the larger unit, from an amount that is a multiple of [k]. *)
Lemma ConvertCoin_to_larger reg (src dst : string) (a k du : Z) :
  GetDenomUnit reg src = (k * du, true) ->
  GetDenomUnit reg dst = (du, true) ->
  0 <= a -> 1 <= k -> 0 < du ->
  a * (k * du) < 2 ^ maxDecBitLen -> a * k + 1 < 2 ^ maxBitLen ->
  ConvertCoin reg (mkCoin dst (a * k)) src = Done (Ok (mkCoin src a)).
Proof.
  intros Hs Hd Ha Hk Hdu Hmul Hint. pose proof P_pos as HP.
  assert (Hvs : validDenom src = true) by (by apply GetDenomUnit_true in Hs as [? _]).
  destruct (ConvertCoin_branches reg (mkCoin dst (a * k)) src du (k * du))
    as [Heq2 Hne2]; try done; [simpl; nia|].
  simpl in *.
  destruct (Z.eq_dec k 1) as [->|Hk1].
  { rewrite Heq2 by lia. by rewrite Z.mul_1_r. }
  assert (Hd2 : a * k * du / (k * du) = a).
  { replace (a * k * du) with (a * (k * du)) by lia. rewrite Z.div_mul by nia. done. }
  assert (Hm2 : (a * k * du) mod (k * du) = 0).
  { replace (a * k * du) with (a * (k * du)) by lia. by rewrite Z.mod_mul by nia. }
  rewrite Hne2; [|nia|lia|nia|nia|nia].
  destruct (quoTruncated_range (a * k * du) (k * du)) as (_ & _ & Hex); [nia|nia|].
  rewrite Hex, Hd2; [done|]. rewrite Hm2. nia.
Qed.

(** X12: between two registered denominations whose source multiplier is a
    whole multiple [k] of the target multiplier, [ConvertCoin] is exact and
    loses nothing on the way back: the amount [a] becomes [a * k], and
    [a * k] converted back is [a] (within the bit budgets). *)
Theorem ConvertCoin_round_trip reg (src dst : string) (a k du : Z) :
  GetDenomUnit reg src = (k * du, true) ->
  GetDenomUnit reg dst = (du, true) ->
  0 <= a -> 1 <= k -> 0 < du ->
  a * (k * du) < 2 ^ maxDecBitLen -> a * k + 1 < 2 ^ maxBitLen ->
  ConvertCoin reg (mkCoin src a) dst = Done (Ok (mkCoin dst (a * k)))
  /\ ConvertCoin reg (mkCoin dst (a * k)) src = Done (Ok (mkCoin src a)).
Proof.
  intros. split;
    [by apply (ConvertCoin_to_smaller reg src dst a k du)
    |by apply (ConvertCoin_to_larger reg src dst a k du)].
Qed.

Lemma ConvertCoin_round_trip_witness :
  ConvertCoin regAtom (mkCoin "atom" 3) "uatom" = Done (Ok (mkCoin "uatom" 3000000))
  /\ ConvertCoin regAtom (mkCoin "uatom" 3000000) "atom" = Done (Ok (mkCoin "atom" 3)).
Proof.
  apply (ConvertCoin_round_trip regAtom "atom" "uatom" 3 1000000 1000000000000);
    by vm_compute.
Defined.

(** X13: a zero amount converts to a zero amount between any two registered
    denominations, whatever their multipliers, unless the target multiplier
    is zero and the source multiplier is not: then even the zero amount
    panics on the division. *)
Theorem ConvertCoin_zero_amount reg (src denom : string) (su du : Z) :
  GetDenomUnit reg src = (su, true) ->
  GetDenomUnit reg denom = (du, true) ->
  (du <> 0 \/ su = du ->
   ConvertCoin reg (mkCoin src 0) denom = Done (Ok (mkCoin denom 0)))
  /\ (du = 0 -> su <> 0 ->
      ConvertCoin reg (mkCoin src 0) denom = Panic DivisionByZero).
Proof.
  intros Hs Hd.
  assert (Hv : validDenom denom = true) by (by apply GetDenomUnit_true in Hd as [? _]).
  assert (Hmul : Mul (NewDecFromInt 0) su = Done 0).
  { unfold Mul, NewDecFromInt. replace (0 * P * su) with (0 * P) by lia.
    by rewrite chop_multiple. }
  assert (Hquo : du <> 0 -> Quo 0 du = Done 0).
  { intros Hdu. unfold Quo. destruct (Z.eqb_spec du 0); [done|].
    replace (0 * P * P) with 0 by lia. rewrite Z.quot_0_l by done.
    by vm_compute. }
  assert (Htr : TruncateInt 0 = Done 0) by (by vm_compute).
  assert (Hnew : NewCoin denom 0 = Done (mkCoin denom 0))
    by (unfold NewCoin; by rewrite Hv).
  unfold ConvertCoin, ValidateDenom. cbn [Denom Amount].
  rewrite Hv, Hs, Hd. unfold DecEqual.
  split.
  - intros Hcase. destruct (Z.eqb_spec su du) as [->|Hne].
    + by rewrite Hnew.
    + assert (du <> 0) by (by destruct Hcase).
      rewrite Hmul, bind_Done. cbv beta.
      rewrite Hquo, bind_Done by done. cbv beta.
      rewrite Htr, bind_Done. cbv beta. by rewrite Hnew.
  - intros -> Hne. destruct (Z.eqb_spec su 0); [done|].
    rewrite Hmul, bind_Done. cbv beta. unfold Quo. by rewrite Z.eqb_refl.
Qed.

Lemma ConvertCoin_zero_amount_witness :
  ConvertCoin regAtom (mkCoin "atom" 0) "uatom" = Done (Ok (mkCoin "uatom" 0))
  /\ ConvertCoin regZeroBase (mkCoin "atom" 0) "uatom" = Panic DivisionByZero.
Proof.
  split.
  - apply (ConvertCoin_zero_amount regAtom "atom" "uatom" one 1000000000000);
      [by vm_compute | by vm_compute | left; discriminate].
  - apply (ConvertCoin_zero_amount regZeroBase "atom" "uatom" one 0);
      by vm_compute.
Defined.

(** X14: when the base that [GetBaseDenom] returns for a coin's denomination
    has a multiplier of which the coin's own multiplier is a whole multiple
    [k], [NormalizeCoin] returns the amount times [k] in the base
    denomination, exactly (within the bit budgets): with [atom] at 1 and its
    base [uatom] at 0.000001, [a] atom is [a * 1000000] uatom. *)
Theorem NormalizeCoin_exact reg (src base : string) (a k du : Z) :
  GetBaseDenom reg src = Ok base ->
  GetDenomUnit reg src = (k * du, true) ->
  GetDenomUnit reg base = (du, true) ->
  0 <= a -> 1 <= k -> 0 < du ->
  a * (k * du) < 2 ^ maxDecBitLen -> a * k + 1 < 2 ^ maxBitLen ->
  NormalizeCoin reg (mkCoin src a) = Done (mkCoin base (a * k)).
Proof.
  intros Hb Hs Hd Ha Hk Hdu Hmul Hint.
  unfold NormalizeCoin. cbn [Denom]. rewrite Hb.
  by rewrite (ConvertCoin_to_smaller reg src base a k du).
Qed.

Lemma NormalizeCoin_exact_witness :
  NormalizeCoin regAtom (mkCoin "atom" 3) = Done (mkCoin "uatom" 3000000).
Proof.
  apply (NormalizeCoin_exact regAtom "atom" "uatom" 3 1000000 1000000000000);
    by vm_compute.
Defined.

(** X15: a coin that [NormalizeCoin] returns is the input coin itself or a
    well-formed coin in the base that [GetBaseDenom] gives for the input's
    denomination; and so for [NormalizeDecCoin]. *)
Theorem Normalize_result reg coin dcoin :
  (forall c, NormalizeCoin reg coin = Done c ->
     c = coin
     \/ (GetBaseDenom reg (Denom coin) = Ok (Denom c)
         /\ validDenom (Denom c) = true /\ 0 <= Amount c))
  /\ (forall c, NormalizeDecCoin reg dcoin = Done c ->
        c = dcoin
        \/ (GetBaseDenom reg (DDenom dcoin) = Ok (DDenom c)
            /\ validDenom (DDenom c) = true /\ 0 <= DAmount c)).
Proof.
  split; intros c.
  - unfold NormalizeCoin.
    destruct (GetBaseDenom reg (Denom coin)) as [base|e]; [|intros [= <-]; by left].
    destruct (ConvertCoin reg coin base) as [[c'|e]|p] eqn:Hc; simpl;
      [|intros [= <-]; by left|done].
    intros [= <-]. right.
    apply ConvertCoin_Ok_inv in Hc as (su & du & _ & _ & Hv & Ha & Hcase).
    assert (Denom c' = base) as -> by (by destruct Hcase as [[_ ->]|(_ & _ & ->)]).
    done.
  - unfold NormalizeDecCoin.
    destruct (GetBaseDenom reg (DDenom dcoin)) as [base|e]; [|intros [= <-]; by left].
    destruct (ConvertDecCoin reg dcoin base) as [[c'|e]|p] eqn:Hc; simpl;
      [|intros [= <-]; by left|done].
    intros [= <-]. right.
    apply ConvertDecCoin_Ok_inv in Hc as (su & du & _ & _ & Hv & Ha & Hcase).
    assert (DDenom c' = base) as -> by (by destruct Hcase as [[_ ->]|(_ & _ & ->)]).
    done.
Qed.

End ConversionMore.

(** * Further properties of the normalisation and of the text entry points *)

Section NormalisationMore.

Local Abbreviation P := precisionReuse.

Implicit Types (reg : Registry) (coin : Coin) (dcoin : DecCoin).

(** X16: [NormalizeCoins] maps a [nil] slice to [nil] and otherwise works
    element by element: it returns exactly when every element normalises and
    truncates, with the results in the order of the input and one for each
    input coin; it panics exactly with the panic of the first element that
    panics. *)
Theorem NormalizeCoins_elementwise reg :
  NormalizeCoins reg None = Done None
  /\ (forall l r, NormalizeCoins reg (Some l) = Done r <->
        exists out, r = Some out
          /\ Forall2 (fun c n => normalizeTruncate reg c = Done n) l out)
  /\ (forall l out, NormalizeCoins reg (Some l) = Done (Some out) ->
        length out = length l)
  /\ (forall l p, NormalizeCoins reg (Some l) = Panic p <->
        exists before c after,
          l = (before ++ c :: after)%list
          /\ Forall (fun x => returns (normalizeTruncate reg x)) before
          /\ normalizeTruncate reg c = Panic p).
Proof.
  assert (Hret : forall l r, NormalizeCoins reg (Some l) = Done r <->
        exists out, r = Some out
          /\ Forall2 (fun c n => normalizeTruncate reg c = Done n) l out).
  { intros l r. unfold NormalizeCoins.
    destruct (normalizeLoop reg l []) as [out|p] eqn:Hl; simpl.
    - apply normalizeLoop_Forall2 in Hl as (news & -> & Hall). simpl.
      split.
      + intros [= <-]. eauto.
      + intros (out & -> & Hall'). f_equal. f_equal.
        clear -Hall Hall'. revert news out Hall Hall'.
        induction l as [|c l IH]; intros news out H1 H2;
          inversion H1; inversion H2; subst; [done|].
        f_equal; [congruence | by apply IH].
    - split; [done|]. intros (out & -> & Hall).
      assert (Hx : normalizeLoop reg l [] = Done out)
        by (apply normalizeLoop_Forall2; eauto).
      congruence. }
  split; [done|]. split; [exact Hret|]. split.
  - intros l out (out' & [= <-] & Hall)%Hret.
    symmetry. by eapply Forall2_length.
  - intros l p. unfold NormalizeCoins.
    rewrite <- normalizeLoop_Panic with (result := []).
    destruct (normalizeLoop reg l []); simpl; split; congruence.
Qed.

(** [TruncateDecimal] on a non-negative amount under a valid name. *)
Lemma TruncateDecimal_nonneg (denom : string) (d : Z) :
  validDenom denom = true -> 0 <= d -> Z.quot d P < 2 ^ maxBitLen ->
  TruncateDecimal (mkDecCoin denom d)
  = Done (mkCoin denom (Z.quot d P), mkDecCoin denom (Z.rem d P)).
Proof.
  intros Hv Hd Hq. pose proof P_pos as HP.
  assert (H0 : 0 <= Z.quot d P) by (apply Z.quot_pos; lia).
  assert (Hr : 0 <= Z.rem d P < P) by (apply Z.rem_bound_pos; lia).
  assert (Hdr : d = P * Z.quot d P + Z.rem d P) by (apply Z.quot_rem'; lia).
  unfold TruncateDecimal. cbn [DAmount DDenom].
  unfold TruncateInt, NewIntFromBigInt.
  rewrite BitLen_fits; [|by vm_compute|lia].
  rewrite bind_Done. cbv beta.
  unfold Sub, NewDecFromInt.
  replace (d - Z.quot d P * P) with (Z.rem d P) by lia.
  rewrite checkDec_fits; cycle 1.
  { assert (P < 2 ^ maxDecBitLen) by (by vm_compute). lia. }
  rewrite bind_Done. cbv beta.
  unfold NewCoin, NewDecCoinFromDec. rewrite Hv.
  destruct (Z.leb_spec 0 (Z.quot d P)); [|lia].
  destruct (Z.leb_spec 0 (Z.rem d P)); [|lia]. done.
Qed.

(** X17: on decimal coins whose denominations have no base ([GetBaseDenom]
    fails), [NormalizeCoins] only truncates: each coin keeps its name and its
    amount loses the decimals (for names of the grammar and non-negative
    amounts whose integer part fits the integer type). *)
Theorem NormalizeCoins_unregistered reg (l : list DecCoin) :
  Forall (fun c => GetBaseDenom reg (DDenom c) = Err NotRegistered
                   /\ validDenom (DDenom c) = true
                   /\ 0 <= DAmount c
                   /\ Z.quot (DAmount c) P < 2 ^ maxBitLen) l ->
  NormalizeCoins reg (Some l)
  = Done (Some (map (fun c => mkCoin (DDenom c) (Z.quot (DAmount c) P)) l)).
Proof.
  intros Hall.
  assert (Hloop : forall acc,
    normalizeLoop reg l acc
    = Done (acc ++ map (fun c => mkCoin (DDenom c) (Z.quot (DAmount c) P)) l)%list).
  { induction Hall as [|c l (Hb & Hv & Ha & Hq) _ IH]; intros acc; simpl.
    - by rewrite app_nil_r.
    - unfold normalizeTruncate, NormalizeDecCoin. rewrite Hb.
      rewrite bind_Done. destruct c as [denom d]. simpl in *.
      rewrite TruncateDecimal_nonneg by done.
      rewrite !bind_Done. cbv beta. rewrite IH. by rewrite <- app_assoc. }
  unfold NormalizeCoins. by rewrite Hloop.
Qed.

Lemma NormalizeCoins_unregistered_witness :
  NormalizeCoins regAtom (Some [mkDecCoin "btc" 1500000000000000000;
                               mkDecCoin "eth" 999999999999999999])
  = Done (Some [mkCoin "btc" 1; mkCoin "eth" 0]).
Proof.
  apply (NormalizeCoins_unregistered regAtom
           [mkDecCoin "btc" 1500000000000000000;
            mkDecCoin "eth" 999999999999999999]).
  repeat constructor; by vm_compute.
Defined.

Lemma TruncateDecimal_Done_valid (dcoin : DecCoin) (c : Coin) (d : DecCoin) :
  TruncateDecimal dcoin = Done (c, d) ->
  validDenom (Denom c) = true /\ 0 <= Amount c.
Proof.
  unfold TruncateDecimal. intros Hrun.
  apply bind_Done_inv in Hrun as (t & _ & Hrun).
  apply bind_Done_inv in Hrun as (ch & _ & Hrun).
  apply bind_Done_inv in Hrun as (c' & Hc & Hrun).
  apply bind_Done_inv in Hrun as (d' & _ & [= <- <-]).
  by apply NewCoin_Done_valid in Hc as (-> & ? & ?).
Qed.

Lemma normalizeTruncate_Done_valid reg dcoin (c : Coin) :
  normalizeTruncate reg dcoin = Done c ->
  validDenom (Denom c) = true /\ 0 <= Amount c.
Proof.
  unfold normalizeTruncate. intros Hrun.
  apply bind_Done_inv in Hrun as (n & _ & Hrun).
  apply bind_Done_inv in Hrun as ([c' d'] & Ht & [= <-]).
  by apply TruncateDecimal_Done_valid in Ht.
Qed.

(** X18: a coin that comes out of a conversion, of [NormalizeCoins] or of
    one of the two parsers is well formed, whatever went in: its name is of
    the grammar and its amount is not negative. *)
Theorem returned_coins_well_formed reg :
  (forall coin denom c, ConvertCoin reg coin denom = Done (Ok c) ->
     validDenom (Denom c) = true /\ 0 <= Amount c)
  /\ (forall dcoin denom c, ConvertDecCoin reg dcoin denom = Done (Ok c) ->
        validDenom (DDenom c) = true /\ 0 <= DAmount c)
  /\ (forall l out, NormalizeCoins reg (Some l) = Done (Some out) ->
        Forall (fun c => validDenom (Denom c) = true /\ 0 <= Amount c) out)
  /\ (forall s c, ParseCoinNormalized reg s = Done (Ok c) ->
        validDenom (Denom c) = true /\ 0 <= Amount c)
  /\ (forall s out, ParseCoinsNormalized reg s = Done (Ok (Some out)) ->
        Forall (fun c => validDenom (Denom c) = true /\ 0 <= Amount c) out).
Proof.
  assert (Hn : forall l out, NormalizeCoins reg (Some l) = Done (Some out) ->
        Forall (fun c => validDenom (Denom c) = true /\ 0 <= Amount c) out).
  { intros l out. unfold NormalizeCoins. intros Hrun.
    apply bind_Done_inv in Hrun as (out' & Hl & [= <-]).
    apply normalizeLoop_Forall2 in Hl as (news & -> & Hall). simpl.
    induction Hall as [|x n l news Hx _ IH]; constructor; [|done].
    by apply normalizeTruncate_Done_valid in Hx. }
  split; [|split; [|split; [exact Hn|split]]].
  - intros coin denom c Hc.
    apply ConvertCoin_Ok_inv in Hc as (su & du & _ & _ & Hv & Ha & Hcase).
    split; [|done]. by destruct Hcase as [[_ ->]|(_ & _ & ->)].
  - intros dcoin denom c Hc.
    apply ConvertDecCoin_Ok_inv in Hc as (su & du & _ & _ & Hv & Ha & Hcase).
    split; [|done]. by destruct Hcase as [[_ ->]|(_ & _ & ->)].
  - intros s c. unfold ParseCoinNormalized. intros Hrun.
    apply bind_Done_inv in Hrun as ([dc|e] & _ & Hrun); [|done].
    apply bind_Done_inv in Hrun as (c' & Hc & [= <-]).
    by apply normalizeTruncate_Done_valid in Hc.
  - intros s out. unfold ParseCoinsNormalized. intros Hrun.
    apply bind_Done_inv in Hrun as ([coins|e] & _ & Hrun); [|done].
    apply bind_Done_inv in Hrun as (r & Hr & [= ->]).
    destruct coins as [l|]; [by apply (Hn l)|]. done.
Qed.

End NormalisationMore.

(** * Further properties of the text entry points *)

Section ParsingMore.

Implicit Types (reg : Registry) (s : string) (l : list ascii).

Lemma span_all (p : ascii -> bool) l : forallb p l = true -> span p l = (l, []).
Proof.
  induction l as [|c l IH]; simpl; [done|].
  intros [Hc Hl]%andb_true_iff. by rewrite Hc, IH.
Qed.

Lemma span_spec (p : ascii -> bool) l :
  l = (fst (span p l) ++ snd (span p l))%list
  /\ forallb p (fst (span p l)) = true
  /\ match snd (span p l) with [] => True | c :: _ => p c = false end.
Proof.
  induction l as [|c l (IH1 & IH2 & IH3)]; [done|].
  cbn [span]. destruct (p c) eqn:Hc; [|by cbn].
  destruct (span p l) as [a b]. cbn [fst snd] in *.
  split; [by rewrite IH1 at 1|]. split; [|done].
  cbn [forallb]. by rewrite Hc, IH2.
Qed.

Lemma span_head (p : ascii -> bool) l :
  match l with [] => True | c :: _ => p c = false end -> span p l = ([], l).
Proof. destruct l as [|c l]; simpl; [done|]. by intros ->. Qed.

Lemma TrimSpace_blank l : forallb isSpace l = true -> TrimSpace l = [].
Proof. intros H. unfold TrimSpace. rewrite (span_all isSpace l) by done. reflexivity. Qed.

(** Trimming twice is trimming once. *)
Lemma TrimSpace_idempotent l : TrimSpace (TrimSpace l) = TrimSpace l.
Proof.
  unfold TrimSpace.
  destruct (span_spec isSpace l) as (_ & _ & HA).
  set (A := snd (span isSpace l)) in *.
  destruct (span_spec isSpace (rev A)) as (HrA & _ & HB).
  set (X := fst (span isSpace (rev A))) in *.
  set (B := snd (span isSpace (rev A))) in *.
  assert (HAeq : A = (rev B ++ rev X)%list).
  { rewrite <- (rev_involutive A), HrA. by rewrite rev_app_distr. }
  assert (Hhead : match rev B with [] => True | c :: _ => isSpace c = false end).
  { destruct (rev B) as [|c T] eqn:HT; [done|].
    rewrite HAeq in HA. simpl in HA. done. }
  rewrite (span_head isSpace (rev B)) by done. simpl.
  rewrite rev_involutive. by rewrite (span_head isSpace B).
Qed.

Lemma TrimSpace_subset l (c : ascii) : In c (TrimSpace l) -> In c l.
Proof.
  unfold TrimSpace.
  destruct (span_spec isSpace l) as (Hl & _ & _).
  set (A := snd (span isSpace l)) in *.
  destruct (span_spec isSpace (rev A)) as (HrA & _ & _).
  set (B := snd (span isSpace (rev A))) in *.
  intros Hc%in_rev.
  assert (In c (rev A)) by (rewrite HrA; apply in_or_app; by right).
  rewrite Hl. apply in_or_app. right. by apply in_rev.
Qed.

Lemma Split_no_comma l : ~ In ","%char l -> Split l = [l].
Proof.
  induction l as [|c l IH]; simpl; [done|].
  intros Hn. destruct (Ascii.eqb_spec c ",") as [->|Hc].
  - exfalso. apply Hn. by left.
  - rewrite IH; [done|]. intros ?. apply Hn. by right.
Qed.

Lemma ParseDecCoin_TrimSpace l : ParseDecCoin (TrimSpace l) = ParseDecCoin l.
Proof. unfold ParseDecCoin. by rewrite TrimSpace_idempotent. Qed.

Lemma ParseDecCoin_Ok_inv l (c : DecCoin) :
  ParseDecCoin l = Done (Ok c) ->
  TrimSpace l <> [] /\ validDenom (DDenom c) = true /\ 0 <= DAmount c.
Proof.
  unfold ParseDecCoin. intros H. split.
  - intros Hnil. rewrite Hnil in H. done.
  - destruct (matchDecCoin (TrimSpace l)) as [[[ds fs] denomStr]|]; [|done].
    destruct (NewDecFromStr ds fs) as [amount|e]; [|done].
    destruct (ValidateDenom denomStr); [done|].
    apply bind_Done_inv in H as (c' & Hc & [= <-]).
    by apply NewDecCoinFromDec_Done_valid in Hc as (-> & ? & ?).
Qed.

(** X19: on a text that is blank (empty, or white space only) the two
    parsers part ways: [ParseCoinNormalized] fails with a parse error, and
    [ParseCoinsNormalized] returns the [nil] list of coins and no error. *)
Theorem Parse_blank reg s :
  forallb isSpace (list_ascii_of_string s) = true ->
  ParseCoinNormalized reg s = Done (Err ParseError)
  /\ ParseCoinsNormalized reg s = Done (Ok None).
Proof.
  intros Hb. split.
  - unfold ParseCoinNormalized, ParseDecCoin. by rewrite TrimSpace_blank by done.
  - unfold ParseCoinsNormalized, ParseDecCoins. by rewrite TrimSpace_blank by done.
Qed.

Lemma Parse_blank_witness :
  ParseCoinNormalized regAtom "  " = Done (Err ParseError)
  /\ ParseCoinsNormalized regAtom "  " = Done (Ok None).
Proof. apply (Parse_blank regAtom "  "). reflexivity. Defined.

(** X20: on a text without a comma that [ParseDecCoin] accepts, the list
    parser agrees with the single-coin parser, returning its coin as a list
    of one, except for a zero amount: [ParseCoinNormalized] returns the zero
    coin, [ParseCoinsNormalized] drops it and returns the empty list. *)
Theorem Parse_one_coin reg s (c : DecCoin) :
  ~ In ","%char (list_ascii_of_string s) ->
  ParseDecCoin (list_ascii_of_string s) = Done (Ok c) ->
  ParseCoinNormalized reg s = (coin ← normalizeTruncate reg c; Done (Ok coin))
  /\ (DAmount c <> 0 ->
      ParseCoinsNormalized reg s
      = (coin ← normalizeTruncate reg c; Done (Ok (Some [coin]))))
  /\ (DAmount c = 0 -> ParseCoinsNormalized reg s = Done (Ok (Some []))).
Proof.
  intros Hcomma Hp.
  destruct (ParseDecCoin_Ok_inv _ _ Hp) as (Hne & Hv & Ha).
  split; [unfold ParseCoinNormalized; by rewrite Hp|].
  assert (Hsplit : Split (TrimSpace (list_ascii_of_string s))
                   = [TrimSpace (list_ascii_of_string s)]).
  { apply Split_no_comma. intros Hin. by apply Hcomma, TrimSpace_subset. }
  assert (Hlist : ParseDecCoins s
    = (if ValidateDecCoins (sanitizeDecCoins [c])
       then Done (Ok (Some (sanitizeDecCoins [c])))
       else Done (Err ParseError))).
  { unfold ParseDecCoins.
    destruct (TrimSpace (list_ascii_of_string s)) as [|x t] eqn:Ht; [done|].
    rewrite Hsplit. simpl parseEach. rewrite <- Ht, ParseDecCoin_TrimSpace, Hp.
    by rewrite !bind_Done. }
  unfold ParseCoinsNormalized. rewrite Hlist.
  unfold sanitizeDecCoins. rewrite filter_cons, filter_nil.
  destruct (decide (DAmount c <> 0)) as [Hnz|Hz].
  - split; [intros _|done]. change (SortDecCoins [c]) with [c].
    unfold ValidateDecCoins. cbn [validateFrom]. rewrite Hv.
    destruct (Z.ltb_spec 0 (DAmount c)); [|lia]. cbn [andb].
    rewrite bind_Done. unfold NormalizeCoins. cbn [normalizeLoop].
    destruct (normalizeTruncate reg c); reflexivity.
  - split; [done|intros _]. reflexivity.
Qed.

Lemma Parse_one_coin_witness :
  ParseCoinNormalized regAtom "1.5atom" = Done (Ok (mkCoin "uatom" 1500000))
  /\ ParseCoinsNormalized regAtom "1.5atom" = Done (Ok (Some [mkCoin "uatom" 1500000]))
  /\ ParseCoinNormalized regAtom "0atom" = Done (Ok (mkCoin "uatom" 0))
  /\ ParseCoinsNormalized regAtom "0atom" = Done (Ok (Some [])).
Proof.
  destruct (Parse_one_coin regAtom "1.5atom" (mkDecCoin "atom" 1500000000000000000))
    as (H1 & H2 & _); [|by vm_compute|].
  { cbn. intros H. repeat (destruct H as [H|H]; [discriminate H|]). exact H. }
  destruct (Parse_one_coin regAtom "0atom" (mkDecCoin "atom" 0))
    as (H3 & _ & H4); [|by vm_compute|].
  { cbn. intros H. repeat (destruct H as [H|H]; [discriminate H|]). exact H. }
  split; [rewrite H1; by vm_compute|].
  split; [rewrite H2; [by vm_compute | discriminate]|].
  split; [rewrite H3; by vm_compute|]. by apply H4.
Defined.

End ParsingMore.
